(** * Indonesian working days: a shallow embedding of [id_working_days/calendar.py]

    The module under study exposes three functions, [working_date],
    [total_working_day] and [working_day].  They are built from pandas date
    ranges, one read of the [holidays] package and a custom business-day
    offset.  Calendar dates are whole days and are represented by their day
    number (days since 1970-01-01, proleptic Gregorian calendar). *)

From Stdlib Require Import ZArith List String Ascii Bool Lia.
From Stdlib Require Import Sorting.Sorted.
Import ListNotations.
Open Scope Z_scope.

(** ** Civil calendar arithmetic *)
Module Calendar.

Definition is_leap (y : Z) : bool :=
  ((y mod 4 =? 0) && negb (y mod 100 =? 0)) || (y mod 400 =? 0).

Definition days_in_month (y m : Z) : Z :=
  if m =? 2 then (if is_leap y then 29 else 28)
  else if (m =? 4) || (m =? 6) || (m =? 9) || (m =? 11) then 30
  else 31.

Definition valid_civil (y m d : Z) : bool :=
  (0 <=? y) && (y <=? 9999) && (1 <=? m) && (m <=? 12)
  && (1 <=? d) && (d <=? days_in_month y m).

(** Day number of the civil date [y]-[m]-[d]; 1970-01-01 is day 0. *)
Definition days_from_civil (y m d : Z) : Z :=
  let y' := if m <=? 2 then y - 1 else y in
  let era := y' / 400 in
  let yoe := y' - era * 400 in
  let mp := if m <=? 2 then m + 9 else m - 3 in
  let doy := (153 * mp + 2) / 5 + d - 1 in
  let doe := yoe * 365 + yoe / 4 - yoe / 100 + doy in
  era * 146097 + doe - 719468.

(** Civil date (year, month, day) of a day number. *)
Definition civil_from_days (z : Z) : Z * Z * Z :=
  let z' := z + 719468 in
  let era := z' / 146097 in
  let doe := z' - era * 146097 in
  let yoe := (doe - doe / 1460 + doe / 36524 - doe / 146096) / 365 in
  let doy := doe - (365 * yoe + yoe / 4 - yoe / 100) in
  let mp := (5 * doy + 2) / 153 in
  let d := doy - (153 * mp + 2) / 5 + 1 in
  let m := if mp <? 10 then mp + 3 else mp - 9 in
  let y := yoe + era * 400 + (if m <=? 2 then 1 else 0) in
  (y, m, d).

Definition year_of (z : Z) : Z := fst (fst (civil_from_days z)).
Definition month_of (z : Z) : Z := snd (fst (civil_from_days z)).
Definition day_of (z : Z) : Z := snd (civil_from_days z).

(** Python's [weekday()]: Monday is 0 and Sunday is 6.  Day 0 was a Thursday. *)
Definition weekday (z : Z) : Z := (z + 3) mod 7.

(** The last day of year [y], the anchor of the pandas frequency ["YE"]. *)
Definition year_end (y : Z) : Z := days_from_civil y 12 31.

(** [P] holds (as a boolean) on the [n] integers from [z]. *)
Fixpoint forall_from (n : nat) (z : Z) (P : Z -> bool) : bool :=
  match n with
  | O => true
  | S n' => P z && forall_from n' (z + 1) P
  end.

(** First day (1 March) of year [k], counted from 1 March of year 0. *)
Definition march_start (k : Z) : Z := 365 * k + k / 4 - k / 100 + k / 400.

(** The year estimate of [civil_from_days] before its division by 365. *)
Definition year_estimate (doe : Z) : Z :=
  doe - doe / 1460 + doe / 36524 - doe / 146096.

(** The estimate is right on the first and on the last day of March year [k]. *)
Definition march_year_ok (k : Z) : bool :=
  (year_estimate (march_start k) / 365 =? k)
  && (year_estimate (march_start (k + 1) - 1) / 365 =? k).

End Calendar.

(** ** Errors and the effect of the one external read *)

(** The exceptions that can abort a call, named as in the error taxonomy of
    the specification.  Python raises them as exceptions of pandas, dateutil
    and the holiday package. *)
Inductive error : Type :=
| InvalidDateRange
| DataUnavailable
| InvalidExtensionValue.

Inductive result (A : Type) : Type :=
| Ok (a : A)
| Error (e : error).
Arguments Ok {A} a.
Arguments Error {A} e.

Definition result_map {A B} (f : A -> B) (r : result A) : result B :=
  match r with
  | Ok a => Ok (f a)
  | Error e => Error e
  end.

(** Every call of the holiday package is recorded with the years it was asked
    for, so that the order of validation and lookup can be stated. *)
Definition Log : Type := list (list Z).

Definition M (A : Type) : Type := Log -> result A * Log.

Definition ret {A} (a : A) : M A := fun log => (Ok a, log).

Definition raise {A} (e : error) : M A := fun log => (Error e, log).

Definition bind {A B} (m : M A) (k : A -> M B) : M B :=
  fun log =>
    match m log with
    | (Ok a, log') => k a log'
    | (Error e, log') => (Error e, log')
    end.

Definition lift {A} (r : result A) : M A := fun log => (r, log).

Notation "x <- m ;; k" := (bind m (fun x => k))
  (at level 61, m at next level, right associativity).

(** Outcome and recorded lookups of a computation started with an empty log. *)
Definition exec {A} (m : M A) : result A := fst (m []).
Definition lookups {A} (m : M A) : Log := snd (m []).

(** ** The pandas and Python operations the module calls *)
Module Pandas.
Import Calendar.

Definition digit (c : ascii) : option Z :=
  let n := Z.of_N (N_of_ascii c) in
  if (48 <=? n) && (n <=? 57) then Some (n - 48) else None.

Definition digits2 (a b : ascii) : option Z :=
  match digit a, digit b with
  | Some x, Some y => Some (10 * x + y)
  | _, _ => None
  end.

Definition digits4 (a b c d : ascii) : option Z :=
  match digits2 a b, digits2 c d with
  | Some x, Some y => Some (100 * x + y)
  | _, _ => None
  end.

(** The date parser of pandas, on the documented input form ['YYYY-MM-DD']
    only.  pandas reads many more forms; they are outside this model, which
    answers them with the parser's error, so nothing below is stated about
    texts this function does not read: the properties of the three functions
    are stated for dates that parse here. *)
Definition to_datetime (s : string) : result Z :=
  match s with
  | String y1 (String y2 (String y3 (String y4 (String h1
      (String m1 (String m2 (String h2 (String d1 (String d2 EmptyString))))))))) =>
      match digits4 y1 y2 y3 y4, digits2 m1 m2, digits2 d1 d2 with
      | Some y, Some m, Some d =>
          if Ascii.eqb h1 "-" && Ascii.eqb h2 "-" && valid_civil y m d
          then Ok (days_from_civil y m d)
          else Error InvalidDateRange
      | _, _, _ => Error InvalidDateRange
      end
  | _ => Error InvalidDateRange
  end.

(** [n] consecutive integers from [a]. *)
Definition zrange (a : Z) (n : nat) : list Z :=
  map (fun i => a + Z.of_nat i) (seq 0 n).

(** [pd.date_range(start=s, end=e, freq="YE")]: the year ends [d] with
    [s <= d <= e], ascending. *)
Definition date_range_YE (s e : Z) : list Z :=
  filter (fun d => (s <=? d) && (d <=? e))
         (map year_end (zrange (year_of s) (Z.to_nat (year_of e - year_of s + 1)))).

(** [pd.date_range(start=s, end=e, freq="D")]. *)
Definition date_range_days (s e : Z) : list Z :=
  zrange s (Z.to_nat (e - s + 1)).

(** Modelled from the spec: [pd.date_range(start=d, periods=p, freq='D')] is
    pandas code, absent from the repository.  It yields [p] consecutive days
    from [d]; a negative [p] is the InvalidExtensionValue failure of the
    specification's error taxonomy.  pandas also refuses counts so large that
    the range leaves its timestamp bounds; where that bound lies depends on
    the pandas version and is not modelled, so for counts above 1 the
    properties below are stated for runs that succeed, or say that a run
    fails, and never that such a run succeeds. *)
Definition date_range_periods (d p : Z) : result (list Z) :=
  if p <? 0 then Error InvalidExtensionValue
  else Ok (zrange d (Z.to_nat p)).

(** ASCII lower case, for [case=False]. *)
Definition lower_ascii (c : ascii) : ascii :=
  let n := N_of_ascii c in
  if (65 <=? n)%N && (n <=? 90)%N then ascii_of_N (n + 32) else c.

Fixpoint lower (s : string) : string :=
  match s with
  | EmptyString => EmptyString
  | String c r => String (lower_ascii c) (lower r)
  end.

Fixpoint contains (pat s : string) : bool :=
  String.prefix pat s
  || match s with
     | EmptyString => false
     | String _ r => contains pat r
     end.

(** [Series.str.contains(pat, case=False)] for a pattern without regular
    expression operators. *)
Definition str_contains_nocase (pat s : string) : bool :=
  contains (lower pat) (lower s).

(** [CustomBusinessDay(weekmask=..., holidays=...)]. *)
Record CustomBusinessDay : Type := {
  weekmask : list bool;   (* Monday first *)
  holidays : list Z
}.

Definition is_on_offset (cbd : CustomBusinessDay) (d : Z) : bool :=
  nth (Z.to_nat (weekday d)) (weekmask cbd) false
  && negb (existsb (Z.eqb d) (holidays cbd)).

(** [pd.date_range(start=s, end=e, freq=cbd)]: the days of [s..e] that are on
    the offset, ascending. *)
Definition date_range_cbd (s e : Z) (cbd : CustomBusinessDay) : list Z :=
  filter (is_on_offset cbd) (date_range_days s e).

(** [Series.dt.to_period('M')]: the month of a day, as the number of months
    since January 1970 (the ordinal pandas stores in a monthly Period). *)
Definition to_period_M (d : Z) : Z :=
  12 * (year_of d - 1970) + (month_of d - 1).

Definition period_year (p : Z) : Z := 1970 + p / 12.
Definition period_month (p : Z) : Z := p mod 12 + 1.

(** [groupby(key).size()]: one row per distinct key, keys ascending, with the
    number of rows that carry the key. *)
Fixpoint count_key (k : Z) (groups : list (Z * nat)) : list (Z * nat) :=
  match groups with
  | [] => [(k, 1%nat)]
  | (k', n) :: rest =>
      if k <? k' then (k, 1%nat) :: groups
      else if k =? k' then (k', S n) :: rest
      else (k', n) :: count_key k rest
  end.

Definition groupby_size (keys : list Z) : list (Z * nat) :=
  fold_left (fun groups k => count_key k groups) keys [].

(** The sum of the counts of a grouped frame. *)
Definition total_rows (groups : list (Z * nat)) : nat :=
  list_sum (map snd groups).

End Pandas.

(** ** The module [id_working_days.calendar] *)
Module IdWorkingDays.
Import Calendar Pandas.

(** A row of the [holiday] frame: columns ["date"] and ["name"]. *)
Record HolidayRecord : Type := {
  date : Z;
  name : string
}.

(** The [holidays] package is an external collaborator: asked for a
    collection of years it answers with its (date, name) items, or fails. *)
Definition HolidaySource : Type := list Z -> result (list HolidayRecord).

(** [holidays.country_holidays("ID", years=ys).items()], recorded in the log. *)
Definition country_holidays (src : HolidaySource) (ys : list Z)
  : M (list HolidayRecord) :=
  fun log => (src ys, log ++ [ys]).

(** Python's order on (date, name) tuples. *)
Definition item_leb (a b : HolidayRecord) : bool :=
  (date a <? date b) || ((date a =? date b) && String.leb (name a) (name b)).

Definition date_leb (a b : HolidayRecord) : bool := date a <=? date b.

Section Sort.
Variable leb : HolidayRecord -> HolidayRecord -> bool.

Fixpoint insert (x : HolidayRecord) (l : list HolidayRecord) : list HolidayRecord :=
  match l with
  | [] => [x]
  | y :: r => if leb x y then x :: l else y :: insert x r
  end.

Definition sort_by (l : list HolidayRecord) : list HolidayRecord :=
  fold_right insert [] l.
End Sort.

(** [sorted(items)]. *)
Definition sorted : list HolidayRecord -> list HolidayRecord := sort_by item_leb.

(** [frame.sort_values('date').reset_index(drop=True)].  pandas leaves the
    order of rows with equal dates open; this model keeps them in place. *)
Definition sort_values_date : list HolidayRecord -> list HolidayRecord :=
  sort_by date_leb.

Definition IDUL_FITRI_2 : string :=
  "Hari kedua dari Hari Raya Idul Fitri (perkiraan)"%string.
Definition NATAL : string := "Hari Raya Natal"%string.
Definition TAHUN_BARU : string := "Tahun Baru Masehi"%string.

(** The row filter that builds [seasonal_event]. *)
Definition is_seasonal (row : HolidayRecord) : bool :=
  String.eqb (name row) IDUL_FITRI_2
  || str_contains_nocase NATAL (name row)
  || str_contains_nocase TAHUN_BARU (name row).

Section Extension.
Variables ied_fitr christmas new_year : option Z.

(** The branch of the loop body a row takes, and with it the count used. *)
Definition periods_of (row : HolidayRecord) : option Z :=
  if String.eqb (name row) IDUL_FITRI_2 then ied_fitr
  else if String.eqb (name row) NATAL then christmas
  else new_year.

Definition extend_row (row : HolidayRecord) (d : Z) : HolidayRecord :=
  {| date := d; name := ("extend " ++ name row)%string |}.

(** The loop over [seasonal_event.iterrows()], appending to
    [additional_holiday]. *)
Fixpoint extend_rows (rows : list HolidayRecord)
         (additional_holiday : list HolidayRecord)
  : result (list HolidayRecord) :=
  match rows with
  | [] => Ok additional_holiday
  | row :: rest =>
      match periods_of row with
      | None => extend_rows rest additional_holiday          (* continue *)
      | Some p =>
          match date_range_periods (date row) p with
          | Error e => Error e
          | Ok date_range =>
              extend_rows rest
                (additional_holiday ++ map (extend_row row) date_range)
          end
      end
  end.
End Extension.

Definition MON_SAT : list bool := [true; true; true; true; true; true; false].
Definition MON_FRI : list bool := [true; true; true; true; true; false; false].

(** Line 82: [type is None or type == 0] selects Monday to Saturday. *)
Definition workday_type (type : option Z) : list bool :=
  match type with
  | None => MON_SAT
  | Some t => if t =? 0 then MON_SAT else MON_FRI
  end.

(** The years handed to the holiday package (line 42). *)
Definition query_years (s e : Z) : list Z := map year_of (date_range_YE s e).

(** The full holiday frame of lines 41 to 79, from the answer of the holiday
    package. *)
Definition holiday_frame (ied_fitr christmas new_year : option Z)
           (items : list HolidayRecord) : result (list HolidayRecord) :=
  let holiday := sorted items in
  let seasonal_event := filter is_seasonal holiday in
  result_map (fun additional_holiday =>
                sort_values_date (holiday ++ additional_holiday))
             (extend_rows ied_fitr christmas new_year seasonal_event []).

(** [working_date]: the frame it returns has the single column
    ['Working Date'], represented by the list of its values. *)
Definition working_date (src : HolidaySource) (start end_ : string)
           (type ied_fitr christmas new_year : option Z) : M (list Z) :=
  s <- lift (to_datetime start) ;;
  e <- lift (to_datetime end_) ;;
  items <- country_holidays src (query_years s e) ;;
  holiday <- lift (holiday_frame ied_fitr christmas new_year items) ;;
  let cbd := {| weekmask := workday_type type;
                holidays := map date holiday |} in
  ret (date_range_cbd s e cbd).

(** [DataFrame.size]: rows times columns, for a frame of one column. *)
Definition size (wd : list Z) : nat := (List.length wd * 1)%nat.

Definition total_working_day (src : HolidaySource) (start end_ : string)
           (type ied_fitr christmas new_year : option Z) : M nat :=
  wd <- working_date src start end_ type ied_fitr christmas new_year ;;
  ret (size wd).

(** [working_day]: rows (Year-Month, Working Days). *)
Definition working_day (src : HolidaySource) (start end_ : string)
           (type ied_fitr christmas new_year : option Z) : M (list (Z * nat)) :=
  wd <- working_date src start end_ type ied_fitr christmas new_year ;;
  let year_month := map to_period_M wd in
  ret (groupby_size year_month).

(** A count of zero read as a count left unset. *)
Definition zero_as_unset (count : option Z) : option Z :=
  match count with
  | Some 0 => None
  | _ => count
  end.

(** The business days of [s..e] for a work-week type and a holiday frame. *)
Definition business_days (s e : Z) (type : option Z)
           (holiday : list HolidayRecord) : list Z :=
  date_range_cbd s e {| weekmask := workday_type type;
                        holidays := map date holiday |}.

(** Two computations that agree from every log. *)
Definition same_run {A} (m1 m2 : M A) : Prop := forall log, m1 log = m2 log.

(** The three functions agree, run for run, under two settings of the counts. *)
Definition agree (src : HolidaySource) (start end_ : string) (type : option Z)
           (i c n i' c' n' : option Z) : Prop :=
  same_run (working_date src start end_ type i c n)
           (working_date src start end_ type i' c' n')
  /\ same_run (total_working_day src start end_ type i c n)
              (total_working_day src start end_ type i' c' n')
  /\ same_run (working_day src start end_ type i c n)
              (working_day src start end_ type i' c' n').

(** Some seasonal row of the answer takes a branch whose count is negative. *)
Definition negative_branch (i c n : option Z) (items : list HolidayRecord)
  : Prop :=
  exists row p,
    In row items /\ is_seasonal row = true
    /\ periods_of i c n row = Some p /\ p < 0.

(** A sample answer of the holiday package, used to run the functions. *)
Definition sample_year (y : Z) : list HolidayRecord :=
  [ {| date := days_from_civil y 1 1; name := "Tahun Baru Masehi"%string |};
    {| date := days_from_civil y 3 31;
       name := "Hari Raya Idul Fitri (perkiraan)"%string |};
    {| date := days_from_civil y 4 1; name := IDUL_FITRI_2 |};
    {| date := days_from_civil y 8 17;
       name := "Hari Kemerdekaan Republik Indonesia"%string |};
    {| date := days_from_civil y 12 25; name := "Hari Raya Natal"%string |} ].

Definition sample_source : HolidaySource :=
  fun ys => Ok (flat_map sample_year ys).

(** A Christmas row under a merged label, of the form the holiday package
    builds when two holidays share a date. *)
Definition merged_natal : HolidayRecord :=
  {| date := days_from_civil 2024 12 25;
     name := "Hari Raya Natal; Tahun Baru Islam (perkiraan)"%string |}.

Definition merged_source : HolidaySource :=
  fun ys => Ok (if existsb (Z.eqb 2024) ys then [merged_natal] else []).

(** The days of [s..e] that are not Sundays. *)
Definition non_sundays (s e : Z) : list Z :=
  filter (fun d => negb (weekday d =? 6)) (date_range_days s e).

(** Day [d] falls in the run of days generated for some seasonal row of the
    answer: the [p] days from the row's date, [p] being the count of the
    branch the row takes. *)
Definition extension_covers (i c n : option Z) (items : list HolidayRecord)
           (d : Z) : Prop :=
  exists row p,
    In row items /\ is_seasonal row = true
    /\ periods_of i c n row = Some p /\ date row <= d < date row + p.

(** A count of one read as a count left unset. *)
Definition one_as_unset (count : option Z) : option Z :=
  match count with
  | Some 1 => None
  | _ => count
  end.

Definition not_saturday (d : Z) : bool := negb (weekday d =? 5).

(** Number of dates of [wd] in the month [k]. *)
Definition rows_in_month (k : Z) (wd : list Z) : nat :=
  List.length (filter (fun d => to_period_M d =? k) wd).

(** Total of the counts that a grouped frame holds under key [k]. *)
Definition group_count (k : Z) (groups : list (Z * nat)) : nat :=
  list_sum (map snd (filter (fun g => fst g =? k) groups)).

(** A holiday package that cannot answer. *)
Definition failing_source : HolidaySource := fun _ => Error DataUnavailable.

(** One estimated second day of Idul Fitri, on day 10. *)
Definition idul_fitri_row : HolidayRecord :=
  {| date := 10; name := IDUL_FITRI_2 |}.

(** What [working_date] returns for 2024-12-20 to 2025-01-10 from
    [sample_source], Monday to Saturday: with no count set, and with
    christmas = 3. *)
Definition sample_dates_unset : list Z :=
  [20077; 20078; 20080; 20081; 20083; 20084; 20085; 20087; 20088;
   20089; 20090; 20091; 20092; 20094; 20095; 20096; 20097; 20098].

Definition sample_dates_christmas : list Z :=
  [20077; 20078; 20080; 20081; 20085; 20087; 20088; 20089; 20090;
   20091; 20092; 20094; 20095; 20096; 20097; 20098].

Definition natal_2024 : HolidayRecord :=
  {| date := days_from_civil 2024 12 25; name := NATAL |}.

(** Some row of the answer belongs to a cluster whose own count is negative:
    the second day of Idul Fitri or Christmas under its exact label, or New
    Year under a label that contains "Tahun Baru Masehi" and no Christmas
    label. *)
Definition own_cluster_negative (i c n : option Z)
           (items : list HolidayRecord) : Prop :=
  exists row p,
    In row items /\ p < 0
    /\ ((name row = IDUL_FITRI_2 /\ i = Some p)
        \/ (name row = NATAL /\ c = Some p)
        \/ (str_contains_nocase TAHUN_BARU (name row) = true
            /\ str_contains_nocase NATAL (name row) = false
            /\ name row <> IDUL_FITRI_2 /\ n = Some p)).

(** The holiday frame built from [sample_year 2024] with ied_fitr = 3. *)
Definition sample_frame : list HolidayRecord :=
  Eval vm_compute in
    match holiday_frame (Some 3) None None (sample_year 2024) with
    | Ok h => h
    | Error _ => []
    end.

End IdWorkingDays.

(** ** Properties of the calendar arithmetic *)
Module CalendarFacts.
Import Calendar.

Lemma forall_from_spec (P : Z -> bool) (n : nat) : forall z,
  forall_from n z P = true -> forall d, z <= d < z + Z.of_nat n -> P d = true.
Proof.
  induction n as [|n IH]; intros z H d Hd; [lia|].
  simpl in H. apply andb_true_iff in H. destruct H as [Hz Hrest].
  destruct (Z.eq_dec d z) as [->|Hne]; [exact Hz|].
  apply (IH (z + 1) Hrest). lia.
Qed.

Lemma march_years : forall_from 400 0 march_year_ok = true.
Proof. vm_compute. reflexivity. Qed.

Lemma year_estimate_step (d : Z) :
  0 <= d < 146096 -> year_estimate d <= year_estimate (d + 1).
Proof.
  intros H. unfold year_estimate.
  Z.div_mod_to_equations. lia.
Qed.

Lemma march_start_step (k : Z) :
  march_start k + 365 <= march_start (k + 1) <= march_start k + 366.
Proof. unfold march_start. Z.div_mod_to_equations. lia. Qed.

Lemma march_start_cycle (q j : Z) :
  march_start (400 * q + j) = 146097 * q + march_start j.
Proof. unfold march_start. Z.div_mod_to_equations. lia. Qed.

Lemma year_estimate_mono (a b : Z) :
  0 <= a -> a <= b -> b <= 146096 -> year_estimate a <= year_estimate b.
Proof.
  intros Ha Hab Hb.
  replace b with (a + Z.of_nat (Z.to_nat (b - a))) in * by lia.
  induction (Z.to_nat (b - a)) as [|n IH].
  - replace (a + Z.of_nat 0) with a by lia. lia.
  - etransitivity; [apply IH; lia|].
    replace (a + Z.of_nat (S n)) with (a + Z.of_nat n + 1) by lia.
    apply year_estimate_step. lia.
Qed.

Lemma march_start_bounds (k : Z) :
  0 <= k <= 400 -> 0 <= march_start k <= 146097.
Proof. unfold march_start. intros H. Z.div_mod_to_equations. lia. Qed.

(** Inside the March year [k] of a cycle the estimate yields [k]. *)
Lemma year_estimate_in_year (k doe : Z) :
  0 <= k < 400 ->
  march_start k <= doe < march_start (k + 1) ->
  year_estimate doe / 365 = k.
Proof.
  intros Hk Hdoe.
  pose proof (forall_from_spec _ _ _ march_years k ltac:(simpl; lia)) as Hok.
  unfold march_year_ok in Hok. apply andb_true_iff in Hok.
  destruct Hok as [Hlo Hhi]. apply Z.eqb_eq in Hlo. apply Z.eqb_eq in Hhi.
  pose proof (march_start_bounds k ltac:(lia)).
  pose proof (march_start_bounds (k + 1) ltac:(lia)).
  apply Z.le_antisymm.
  - rewrite <- Hhi. apply Z.div_le_mono; [lia|].
    apply year_estimate_mono; lia.
  - rewrite <- Hlo at 1. apply Z.div_le_mono; [lia|].
    apply year_estimate_mono; lia.
Qed.

(** Every day of a cycle lies in one of its 400 March years. *)
Lemma march_year_exists (doe : Z) :
  0 <= doe < 146097 ->
  exists k, 0 <= k < 400 /\ march_start k <= doe < march_start (k + 1).
Proof.
  intros Hdoe.
  assert (H : forall n : nat, (n <= 400)%nat -> doe < march_start (Z.of_nat n) ->
              exists k, 0 <= k < Z.of_nat n
                        /\ march_start k <= doe < march_start (k + 1)).
  { induction n as [|n IH]; intros Hn Hlt.
    - change (march_start (Z.of_nat 0)) with 0 in Hlt. lia.
    - destruct (Z_lt_le_dec doe (march_start (Z.of_nat n))) as [Hl|Hg].
      + destruct (IH ltac:(lia) Hl) as (k & Hk & Hb). exists k. split; [lia|exact Hb].
      + exists (Z.of_nat n). split; [lia|].
        replace (Z.of_nat n + 1) with (Z.of_nat (S n)) by lia. lia. }
  destruct (H 400%nat (le_n _)) as (k & Hk & Hb).
  - change (march_start (Z.of_nat 400)) with 146097. lia.
  - exists k. split; [lia|exact Hb].
Qed.

(** The year of a day of the cycle that starts on 1 March of year 0. *)
Lemma year_of_cycle_day (k doe : Z) :
  0 <= k < 400 ->
  march_start k <= doe < march_start (k + 1) ->
  year_of (doe - 719468) = k + (if doe - march_start k <? 306 then 0 else 1).
Proof.
  intros Hk Hdoe.
  pose proof (year_estimate_in_year k doe Hk Hdoe) as Hyoe.
  pose proof (march_start_bounds k ltac:(lia)) as Hb1.
  pose proof (march_start_bounds (k + 1) ltac:(lia)) as Hb2.
  pose proof (march_start_step k) as Hstep.
  unfold year_of, civil_from_days. cbv zeta. cbn [fst snd].
  replace (doe - 719468 + 719468) with doe by lia.
  rewrite (Z.div_small doe 146097) by lia.
  replace (doe - 0 * 146097) with doe by lia.
  fold (year_estimate doe). rewrite Hyoe.
  assert (Hm : 365 * k + k / 4 - k / 100 = march_start k).
  { unfold march_start. rewrite (Z.div_small k 400) by lia. lia. }
  rewrite Hm.
  set (doy := doe - march_start k).
  assert (Hdoy : 0 <= doy <= 365) by (unfold doy; lia).
  destruct (Z.ltb_spec doy 306) as [Hlt|Hge].
  - assert (Hmp : (5 * doy + 2) / 153 < 10) by (Z.div_mod_to_equations; lia).
    destruct (Z.ltb_spec ((5 * doy + 2) / 153) 10); [|lia].
    assert (0 <= (5 * doy + 2) / 153) by (Z.div_mod_to_equations; lia).
    destruct (Z.leb_spec ((5 * doy + 2) / 153 + 3) 2); lia.
  - assert (Hmp : 10 <= (5 * doy + 2) / 153 <= 11) by (Z.div_mod_to_equations; lia).
    destruct (Z.ltb_spec ((5 * doy + 2) / 153) 10); [lia|].
    destruct (Z.leb_spec ((5 * doy + 2) / 153 - 9) 2); lia.
Qed.

Lemma year_of_cycle (z : Z) :
  year_of z
  = year_of ((z + 719468) mod 146097 - 719468) + 400 * ((z + 719468) / 146097).
Proof.
  unfold year_of, civil_from_days. cbv zeta. cbn [fst snd].
  set (z' := z + 719468).
  replace (z' mod 146097 - 719468 + 719468) with (z' mod 146097) by lia.
  assert (Hr : 0 <= z' mod 146097 < 146097) by (apply Z.mod_pos_bound; lia).
  rewrite (Z.div_small (z' mod 146097) 146097 Hr).
  replace (z' mod 146097 - 0 * 146097) with (z' mod 146097) by lia.
  replace (z' - z' / 146097 * 146097) with (z' mod 146097)
    by (rewrite Z.mod_eq by lia; lia).
  lia.
Qed.

Lemma year_end_march (y : Z) : year_end y = march_start y + 305 - 719468.
Proof.
  unfold year_end, days_from_civil, march_start. cbv zeta.
  change (12 <=? 2) with false. cbv iota.
  change ((153 * (12 - 3) + 2) / 5 + 31 - 1) with 305.
  Z.div_mod_to_equations. lia.
Qed.

Lemma year_end_increasing (a b : Z) : a < b -> year_end a < year_end b.
Proof.
  intros H. rewrite !year_end_march. unfold march_start.
  Z.div_mod_to_equations. lia.
Qed.

(** A day lies after the end of the year before its own and not after the
    end of its own year. *)
Lemma year_of_bracket (z : Z) :
  year_end (year_of z - 1) < z <= year_end (year_of z).
Proof.
  set (z' := z + 719468).
  assert (Hr : 0 <= z' mod 146097 < 146097) by (apply Z.mod_pos_bound; lia).
  destruct (march_year_exists _ Hr) as (k & Hk & Hb).
  rewrite year_of_cycle. fold z'.
  rewrite (year_of_cycle_day k _ Hk Hb).
  pose proof (Z.div_mod z' 146097 ltac:(lia)) as Hz.
  pose proof (march_start_step k) as Hstep.
  pose proof (march_start_step (k - 1)) as Hprev.
  replace (k - 1 + 1) with k in Hprev by lia.
  rewrite !year_end_march.
  destruct (Z.ltb_spec (z' mod 146097 - march_start k) 306) as [Hlt|Hge].
  - replace (k + 0 + 400 * (z' / 146097) - 1)
      with (400 * (z' / 146097) + (k - 1)) by lia.
    replace (k + 0 + 400 * (z' / 146097))
      with (400 * (z' / 146097) + k) by lia.
    rewrite !march_start_cycle. lia.
  - replace (k + 1 + 400 * (z' / 146097) - 1)
      with (400 * (z' / 146097) + k) by lia.
    replace (k + 1 + 400 * (z' / 146097))
      with (400 * (z' / 146097) + (k + 1)) by lia.
    rewrite !march_start_cycle. lia.
Qed.

Lemma year_of_year_end (y : Z) : year_of (year_end y) = y.
Proof.
  pose proof (year_of_bracket (year_end y)) as [Hlo Hhi].
  destruct (Z.lt_trichotomy (year_of (year_end y)) y) as [Hlt|[Heq|Hgt]];
    [|exact Heq|].
  - pose proof (year_end_increasing _ _ Hlt). lia.
  - destruct (Z.eq_dec (year_of (year_end y) - 1) y) as [He|Hne].
    + rewrite He in Hlo. lia.
    + pose proof (year_end_increasing y (year_of (year_end y) - 1) ltac:(lia)). lia.
Qed.

Lemma year_of_monotone (a b : Z) : a <= b -> year_of a <= year_of b.
Proof.
  intros Hab.
  destruct (Z_le_gt_dec (year_of a) (year_of b)) as [H|H]; [exact H|].
  pose proof (year_of_bracket a) as [Ha _].
  pose proof (year_of_bracket b) as [_ Hb].
  destruct (Z.eq_dec (year_of b) (year_of a - 1)) as [He|Hne].
  - rewrite He in Hb. lia.
  - pose proof (year_end_increasing (year_of b) (year_of a - 1) ltac:(lia)). lia.
Qed.

End CalendarFacts.

(** ** Properties of the pandas operations *)
Module PandasFacts.
Import Calendar Pandas.

Lemma zrange_S (a : Z) (n : nat) : zrange a (S n) = a :: zrange (a + 1) n.
Proof.
  unfold zrange. simpl. f_equal.
  - lia.
  - rewrite <- seq_shift, map_map. apply map_ext. intros i. lia.
Qed.

Lemma In_zrange (a : Z) (n : nat) (d : Z) :
  In d (zrange a n) <-> a <= d < a + Z.of_nat n.
Proof.
  unfold zrange. rewrite in_map_iff. split.
  - intros (i & <- & Hi). apply in_seq in Hi. lia.
  - intros Hd. exists (Z.to_nat (d - a)). split; [lia | apply in_seq; lia].
Qed.

Lemma zrange_increasing (n : nat) : forall a, StronglySorted Z.lt (zrange a n).
Proof.
  induction n as [|n IH]; intros a.
  - constructor.
  - rewrite zrange_S. constructor; [apply IH|].
    apply Forall_forall. intros d Hd. apply In_zrange in Hd. lia.
Qed.

Lemma filter_increasing (f : Z -> bool) (l : list Z) :
  StronglySorted Z.lt l -> StronglySorted Z.lt (filter f l).
Proof.
  induction 1 as [|x l Hl IH Hx]; simpl; [constructor|].
  destruct (f x); [|exact IH].
  constructor; [exact IH|].
  apply Forall_forall. intros y Hy. apply filter_In in Hy.
  rewrite Forall_forall in Hx. apply Hx, Hy.
Qed.

Lemma filter_none {A} (f : A -> bool) (l : list A) :
  (forall x, In x l -> f x = false) -> filter f l = [].
Proof.
  induction l as [|x l IH]; simpl; intros H; [reflexivity|].
  rewrite (H x (or_introl eq_refl)). apply IH. intros y Hy. apply H. now right.
Qed.

Lemma In_date_range_days (s e d : Z) :
  In d (date_range_days s e) <-> s <= d <= e.
Proof. unfold date_range_days. rewrite In_zrange. lia. Qed.

Lemma date_range_days_empty (s e : Z) : e < s -> date_range_days s e = [].
Proof.
  intros H. unfold date_range_days.
  replace (Z.to_nat (e - s + 1)) with 0%nat by lia. reflexivity.
Qed.

Lemma date_range_YE_empty (s e : Z) : e < s -> date_range_YE s e = [].
Proof.
  intros H. unfold date_range_YE. apply filter_none. intros d _.
  destruct (Z.leb_spec s d), (Z.leb_spec d e); simpl; try reflexivity. lia.
Qed.

(** A day is produced by the business-day range exactly when it lies in the
    range, its weekday is in the mask and it is no holiday. *)
Lemma In_date_range_cbd (s e : Z) (cbd : CustomBusinessDay) (d : Z) :
  In d (date_range_cbd s e cbd) <->
  s <= d <= e
  /\ nth (Z.to_nat (weekday d)) (weekmask cbd) false = true
  /\ ~ In d (holidays cbd).
Proof.
  unfold date_range_cbd, is_on_offset.
  rewrite filter_In, In_date_range_days, andb_true_iff, negb_true_iff.
  assert (Hex : existsb (Z.eqb d) (holidays cbd) = false <-> ~ In d (holidays cbd)).
  { rewrite <- not_true_iff_false, existsb_exists. split.
    - intros Hn Hin. apply Hn. exists d. split; [exact Hin | apply Z.eqb_refl].
    - intros Hn (x & Hx & Heq). apply Z.eqb_eq in Heq. subst x. now apply Hn. }
  rewrite Hex. tauto.
Qed.

Lemma date_range_cbd_increasing (s e : Z) (cbd : CustomBusinessDay) :
  StronglySorted Z.lt (date_range_cbd s e cbd).
Proof. apply filter_increasing, zrange_increasing. Qed.

Lemma weekday_range (d : Z) : 0 <= weekday d < 7.
Proof. unfold weekday. apply Z.mod_pos_bound. lia. Qed.

(** Counting by key keeps the total number of rows. *)
Lemma total_rows_count_key (k : Z) (groups : list (Z * nat)) :
  total_rows (count_key k groups) = S (total_rows groups).
Proof.
  unfold total_rows.
  induction groups as [|[k' n] rest IH]; simpl; [reflexivity|].
  destruct (k <? k'); [reflexivity|].
  destruct (k =? k'); simpl; [reflexivity|].
  rewrite IH. lia.
Qed.

Lemma total_rows_fold (keys : list Z) : forall groups,
  total_rows (fold_left (fun g k => count_key k g) keys groups)
  = (List.length keys + total_rows groups)%nat.
Proof.
  induction keys as [|k keys IH]; intros groups; simpl; [reflexivity|].
  rewrite IH, total_rows_count_key. lia.
Qed.

Lemma total_rows_groupby_size (keys : list Z) :
  total_rows (groupby_size keys) = List.length keys.
Proof. unfold groupby_size. rewrite total_rows_fold. unfold total_rows. simpl. lia. Qed.

End PandasFacts.

(** ** Properties of the three functions *)
Module Properties.
Import Calendar Pandas CalendarFacts PandasFacts IdWorkingDays.

Section Run.
Variable src : HolidaySource.
Variables start end_ : string.
Variables type ied_fitr christmas new_year : option Z.

(** The run of [working_date], case by case. *)
Lemma working_date_run (log : Log) :
  working_date src start end_ type ied_fitr christmas new_year log =
  match to_datetime start with
  | Error x => (Error x, log)
  | Ok s =>
      match to_datetime end_ with
      | Error x => (Error x, log)
      | Ok e =>
          (match src (query_years s e) with
           | Error x => Error x
           | Ok items =>
               result_map (business_days s e type)
                          (holiday_frame ied_fitr christmas new_year items)
           end, (log ++ [query_years s e])%list)
      end
  end.
Proof.
  unfold working_date, bind, lift, country_holidays, ret, business_days.
  destruct (to_datetime start) as [s|x]; [|reflexivity].
  destruct (to_datetime end_) as [e|x]; [|reflexivity].
  destruct (src (query_years s e)) as [items|x]; [|reflexivity].
  destruct (holiday_frame ied_fitr christmas new_year items); reflexivity.
Qed.

Lemma total_working_day_run (log : Log) :
  total_working_day src start end_ type ied_fitr christmas new_year log =
  let r := working_date src start end_ type ied_fitr christmas new_year log in
  (result_map size (fst r), snd r).
Proof.
  unfold total_working_day, bind, ret.
  destruct (working_date _ _ _ _ _ _ _ log) as [[wd|x] log']; reflexivity.
Qed.

Lemma working_day_run (log : Log) :
  working_day src start end_ type ied_fitr christmas new_year log =
  let r := working_date src start end_ type ied_fitr christmas new_year log in
  (result_map (fun wd => groupby_size (map to_period_M wd)) (fst r), snd r).
Proof.
  unfold working_day, bind, ret.
  destruct (working_date _ _ _ _ _ _ _ log) as [[wd|x] log']; reflexivity.
Qed.
End Run.

Lemma size_length (wd : list Z) : size wd = List.length wd.
Proof. unfold size. lia. Qed.

Lemma business_days_increasing s e type holiday :
  StronglySorted Z.lt (business_days s e type holiday).
Proof. apply date_range_cbd_increasing. Qed.

Lemma business_days_in_range s e type holiday :
  Forall (fun d => s <= d <= e) (business_days s e type holiday).
Proof.
  apply Forall_forall. intros d Hd. apply In_date_range_cbd in Hd. tauto.
Qed.

Lemma business_days_empty s e type holiday :
  e < s -> business_days s e type holiday = [].
Proof.
  intros H. unfold business_days, date_range_cbd.
  rewrite date_range_days_empty by exact H. reflexivity.
Qed.

Lemma query_years_empty s e : e < s -> query_years s e = [].
Proof.
  intros H. unfold query_years. rewrite date_range_YE_empty by exact H.
  reflexivity.
Qed.

(** A successful run of [working_date] parsed both dates and returns the
    business days of the range for some holiday frame. *)
Lemma working_date_ok src start end_ type ied_fitr christmas new_year wd :
  exec (working_date src start end_ type ied_fitr christmas new_year) = Ok wd ->
  exists s e holiday,
    to_datetime start = Ok s /\ to_datetime end_ = Ok e
    /\ wd = business_days s e type holiday.
Proof.
  unfold exec. rewrite working_date_run.
  destruct (to_datetime start) as [s|x]; [|discriminate].
  destruct (to_datetime end_) as [e|x]; [|discriminate]. simpl.
  destruct (src (query_years s e)) as [items|x]; [|discriminate].
  destruct (holiday_frame ied_fitr christmas new_year items) as [holiday|x];
    simpl; [|discriminate].
  intros [= <-]. now exists s, e, holiday.
Qed.

(** C8: for parsable [start <= end], the dates returned by [working_date] are
    strictly increasing and all lie in the closed range from start to end. *)
Theorem working_date_increasing_in_range
        src start end_ type ied_fitr christmas new_year s e wd :
  to_datetime start = Ok s ->
  to_datetime end_ = Ok e ->
  s <= e ->
  exec (working_date src start end_ type ied_fitr christmas new_year) = Ok wd ->
  StronglySorted Z.lt wd /\ Forall (fun d => s <= d <= e) wd.
Proof.
  intros Hs He _ Hwd.
  destruct (working_date_ok _ _ _ _ _ _ _ _ Hwd) as (s' & e' & holiday & Hs' & He' & ->).
  rewrite Hs in Hs'. rewrite He in He'. injection Hs' as <-. injection He' as <-.
  split; [apply business_days_increasing | apply business_days_in_range].
Qed.

Lemma exec_total_working_day src start end_ type ied_fitr christmas new_year :
  exec (total_working_day src start end_ type ied_fitr christmas new_year)
  = result_map size
      (exec (working_date src start end_ type ied_fitr christmas new_year)).
Proof. unfold exec. now rewrite total_working_day_run. Qed.

(** C6: [total_working_day] is the length of what [working_date] returns for
    the same arguments and the same answer of the holiday package; it fails
    exactly when [working_date] fails, and with the same error. *)
Theorem total_working_day_is_length
        src start end_ type ied_fitr christmas new_year :
  exec (total_working_day src start end_ type ied_fitr christmas new_year)
  = result_map (@List.length Z)
      (exec (working_date src start end_ type ied_fitr christmas new_year)).
Proof.
  rewrite exec_total_working_day.
  destruct (exec _) as [wd|x]; simpl; [|reflexivity].
  now rewrite size_length.
Qed.

(** C7: the counts of the monthly breakdown returned by [working_day] add up
    to [total_working_day] for the same arguments; both fail together. *)
Theorem working_day_counts_sum_to_total
        src start end_ type ied_fitr christmas new_year :
  result_map total_rows
    (exec (working_day src start end_ type ied_fitr christmas new_year))
  = exec (total_working_day src start end_ type ied_fitr christmas new_year).
Proof.
  unfold exec. rewrite working_day_run, total_working_day_run. simpl.
  destruct (fst _) as [wd|x]; simpl; [|reflexivity].
  now rewrite total_rows_groupby_size, length_map, size_length.
Qed.

(** C5: when start is after end (both parsable) and the holiday package,
    asked for no year, answers with no holiday, [working_date] returns the
    empty sequence and [total_working_day] returns 0; neither raises. *)
Theorem reversed_range_is_empty
        src start end_ type ied_fitr christmas new_year s e :
  to_datetime start = Ok s ->
  to_datetime end_ = Ok e ->
  e < s ->
  src [] = Ok [] ->
  exec (working_date src start end_ type ied_fitr christmas new_year) = Ok []
  /\ exec (total_working_day src start end_ type ied_fitr christmas new_year)
     = Ok 0%nat.
Proof.
  intros Hs He Hlt Hsrc.
  assert (Hwd : exec (working_date src start end_ type ied_fitr christmas new_year)
                = Ok []).
  { unfold exec. rewrite working_date_run, Hs, He. simpl.
    rewrite query_years_empty by exact Hlt. rewrite Hsrc.
    unfold holiday_frame. simpl.
    now rewrite business_days_empty by exact Hlt. }
  split; [exact Hwd|].
  rewrite exec_total_working_day, Hwd. reflexivity.
Qed.

Lemma five_day_mask (d : Z) :
  nth (Z.to_nat (weekday d)) MON_FRI false = true -> weekday d < 5.
Proof.
  pose proof (weekday_range d) as Hr. intros H.
  destruct (Z_lt_le_dec (weekday d) 5) as [Hlt|Hge]; [exact Hlt|].
  assert (Hw : weekday d = 5 \/ weekday d = 6) by lia.
  destruct Hw as [Hw|Hw]; rewrite Hw in H; discriminate H.
Qed.

Lemma workday_type_nonzero (t : Z) : t <> 0 -> workday_type (Some t) = MON_FRI.
Proof. intros H. simpl. now destruct (Z.eqb_spec t 0). Qed.

(** *** Extension counts *)

Lemma periods_of_zero_as_unset i c n row :
  periods_of (zero_as_unset i) (zero_as_unset c) (zero_as_unset n) row
  = zero_as_unset (periods_of i c n row).
Proof.
  unfold periods_of.
  destruct (String.eqb (name row) IDUL_FITRI_2); [reflexivity|].
  destruct (String.eqb (name row) NATAL); reflexivity.
Qed.

Lemma extend_rows_zero_as_unset i c n rows : forall acc,
  extend_rows (zero_as_unset i) (zero_as_unset c) (zero_as_unset n) rows acc
  = extend_rows i c n rows acc.
Proof.
  induction rows as [|row rest IH]; intros acc; simpl; [reflexivity|].
  rewrite periods_of_zero_as_unset.
  destruct (periods_of i c n row) as [p|]; simpl; [|apply IH].
  destruct p as [|p|p]; simpl.
  - rewrite IH. now rewrite app_nil_r.
  - rewrite IH. reflexivity.
  - reflexivity.
Qed.

Lemma holiday_frame_zero_as_unset i c n items :
  holiday_frame (zero_as_unset i) (zero_as_unset c) (zero_as_unset n) items
  = holiday_frame i c n items.
Proof. unfold holiday_frame. now rewrite extend_rows_zero_as_unset. Qed.

Lemma working_date_zero_as_unset src start end_ type i c n :
  same_run
    (working_date src start end_ type
                  (zero_as_unset i) (zero_as_unset c) (zero_as_unset n))
    (working_date src start end_ type i c n).
Proof.
  intros log. rewrite !working_date_run.
  destruct (to_datetime start) as [s|x]; [|reflexivity].
  destruct (to_datetime end_) as [e|x]; [|reflexivity].
  destruct (src (query_years s e)) as [items|x]; [|reflexivity].
  now rewrite holiday_frame_zero_as_unset.
Qed.

(** Two settings of the three counts that differ only in writing 0 for unset. *)
Lemma working_date_same_counts src start end_ type i c n i' c' n' :
  zero_as_unset i = zero_as_unset i' ->
  zero_as_unset c = zero_as_unset c' ->
  zero_as_unset n = zero_as_unset n' ->
  same_run (working_date src start end_ type i c n)
           (working_date src start end_ type i' c' n').
Proof.
  intros Hi Hc Hn log.
  rewrite <- (working_date_zero_as_unset src start end_ type i c n log).
  rewrite <- (working_date_zero_as_unset src start end_ type i' c' n' log).
  now rewrite Hi, Hc, Hn.
Qed.

Lemma derived_same_counts src start end_ type i c n i' c' n' :
  same_run (working_date src start end_ type i c n)
           (working_date src start end_ type i' c' n') ->
  same_run (total_working_day src start end_ type i c n)
           (total_working_day src start end_ type i' c' n')
  /\ same_run (working_day src start end_ type i c n)
              (working_day src start end_ type i' c' n').
Proof.
  intros H. split; intros log.
  - rewrite !total_working_day_run. now rewrite H.
  - rewrite !working_day_run. now rewrite H.
Qed.

Lemma agree_same_counts src start end_ type i c n i' c' n' :
  zero_as_unset i = zero_as_unset i' ->
  zero_as_unset c = zero_as_unset c' ->
  zero_as_unset n = zero_as_unset n' ->
  agree src start end_ type i c n i' c' n'.
Proof.
  intros Hi Hc Hn.
  pose proof (working_date_same_counts src start end_ type _ _ _ _ _ _ Hi Hc Hn)
    as H.
  split; [exact H | now apply derived_same_counts].
Qed.

(** C10: a count of exactly 0 for a cluster behaves as that count left unset:
    the loop generates the same extension records (none for that cluster's
    rows) and [working_date], [total_working_day] and [working_day] run
    identically, whatever the other two counts are. *)
Theorem zero_extension_is_unset src start end_ type i c n :
  (agree src start end_ type (Some 0) c n None c n
   /\ agree src start end_ type i (Some 0) n i None n
   /\ agree src start end_ type i c (Some 0) i c None)
  /\ (forall rows acc,
        extend_rows (Some 0) c n rows acc = extend_rows None c n rows acc
        /\ extend_rows i (Some 0) n rows acc = extend_rows i None n rows acc
        /\ extend_rows i c (Some 0) rows acc = extend_rows i c None rows acc).
Proof.
  split.
  - repeat split; apply agree_same_counts; reflexivity.
  - intros rows acc. repeat split.
    + rewrite <- (extend_rows_zero_as_unset (Some 0) c n).
      rewrite <- (extend_rows_zero_as_unset None c n). reflexivity.
    + rewrite <- (extend_rows_zero_as_unset i (Some 0) n).
      rewrite <- (extend_rows_zero_as_unset i None n). reflexivity.
    + rewrite <- (extend_rows_zero_as_unset i c (Some 0)).
      rewrite <- (extend_rows_zero_as_unset i c None). reflexivity.
Qed.

(** *** Where a negative count is noticed *)

Lemma In_insert leb (x y : HolidayRecord) (l : list HolidayRecord) :
  In y (insert leb x l) <-> y = x \/ In y l.
Proof.
  induction l as [|z l IH]; simpl; [intuition congruence|].
  destruct (leb x z); simpl; [intuition congruence|].
  rewrite IH. intuition congruence.
Qed.

Lemma In_sort_by leb (y : HolidayRecord) (l : list HolidayRecord) :
  In y (sort_by leb l) <-> In y l.
Proof.
  induction l as [|x l IH]; simpl; [tauto|].
  rewrite In_insert, IH. intuition congruence.
Qed.

Lemma date_range_periods_error d p x :
  date_range_periods d p = Error x -> x = InvalidExtensionValue /\ p < 0.
Proof.
  unfold date_range_periods. destruct (Z.ltb_spec p 0); [|discriminate].
  intros [= <-]. now split.
Qed.

Lemma extend_rows_error i c n rows : forall acc x,
  extend_rows i c n rows acc = Error x ->
  x = InvalidExtensionValue
  /\ exists row p, In row rows /\ periods_of i c n row = Some p /\ p < 0.
Proof.
  induction rows as [|row rest IH]; intros acc x; simpl; [discriminate|].
  destruct (periods_of i c n row) as [p|] eqn:Hp.
  - destruct (date_range_periods (date row) p) as [dr|y] eqn:Hdr.
    + intros H. destruct (IH _ _ H) as (Hx & r & q & Hin & Hq & Hneg).
      split; [exact Hx|]. exists r, q. auto.
    + intros [= <-]. destruct (date_range_periods_error _ _ _ Hdr) as [-> Hneg].
      split; [reflexivity|]. exists row, p. auto.
  - intros H. destruct (IH _ _ H) as (Hx & r & q & Hin & Hq & Hneg).
    split; [exact Hx|]. exists r, q. auto.
Qed.

Lemma extend_rows_negative i c n rows :
  (exists row p, In row rows /\ periods_of i c n row = Some p /\ p < 0) ->
  forall acc, extend_rows i c n rows acc = Error InvalidExtensionValue.
Proof.
  induction rows as [|row rest IH]; intros (r & q & Hin & Hq & Hneg) acc;
    [destruct Hin|].
  simpl. destruct Hin as [<-|Hin].
  - rewrite Hq. unfold date_range_periods.
    destruct (Z.ltb_spec q 0); [reflexivity | lia].
  - assert (Hrest : forall acc', extend_rows i c n rest acc'
                                 = Error InvalidExtensionValue).
    { apply IH. exists r, q. auto. }
    destruct (periods_of i c n row) as [p|]; [|apply Hrest].
    unfold date_range_periods. destruct (Z.ltb_spec p 0); [reflexivity|].
    apply Hrest.
Qed.

Lemma holiday_frame_error i c n items x :
  holiday_frame i c n items = Error x ->
  x = InvalidExtensionValue /\ negative_branch i c n items.
Proof.
  unfold holiday_frame.
  destruct (extend_rows i c n (filter is_seasonal (sorted items)) []) as [a|y]
    eqn:Hext; simpl; [discriminate|].
  intros [= <-].
  destruct (extend_rows_error _ _ _ _ _ _ Hext) as (-> & row & p & Hin & Hp & Hneg).
  split; [reflexivity|]. exists row, p.
  apply filter_In in Hin. destruct Hin as [Hin Hseason].
  apply In_sort_by in Hin. auto.
Qed.

Lemma holiday_frame_negative i c n items :
  negative_branch i c n items ->
  holiday_frame i c n items = Error InvalidExtensionValue.
Proof.
  intros (row & p & Hin & Hseason & Hp & Hneg). unfold holiday_frame.
  rewrite extend_rows_negative; [reflexivity|].
  exists row, p. split; [|auto].
  apply filter_In. split; [|exact Hseason]. now apply In_sort_by.
Qed.

Lemma result_map_error {A B} (f : A -> B) (r : result A) (x : error) :
  result_map f r = Error x <-> r = Error x.
Proof. destruct r; simpl; split; congruence. Qed.

Lemma lookups_working_date src start end_ type i c n s e :
  to_datetime start = Ok s -> to_datetime end_ = Ok e ->
  lookups (working_date src start end_ type i c n) = [query_years s e].
Proof.
  intros Hs He. unfold lookups. now rewrite working_date_run, Hs, He.
Qed.

Lemma exec_working_date src start end_ type i c n s e :
  to_datetime start = Ok s -> to_datetime end_ = Ok e ->
  exec (working_date src start end_ type i c n)
  = match src (query_years s e) with
    | Error x => Error x
    | Ok items => result_map (business_days s e type) (holiday_frame i c n items)
    end.
Proof.
  intros Hs He. unfold exec. now rewrite working_date_run, Hs, He.
Qed.

Lemma exec_working_day src start end_ type i c n :
  exec (working_day src start end_ type i c n)
  = result_map (fun wd => groupby_size (map to_period_M wd))
      (exec (working_date src start end_ type i c n)).
Proof. unfold exec. now rewrite working_day_run. Qed.

Lemma lookups_derived src start end_ type i c n :
  lookups (total_working_day src start end_ type i c n)
  = lookups (working_date src start end_ type i c n)
  /\ lookups (working_day src start end_ type i c n)
     = lookups (working_date src start end_ type i c n).
Proof.
  unfold lookups. now rewrite total_working_day_run, working_day_run.
Qed.

(** Closed facts about runs on concrete inputs are settled by evaluation. *)
Ltac conjuncts := repeat match goal with |- _ /\ _ => split end.
Ltac by_evaluation := conjuncts; vm_compute; reflexivity.

(** C4, counterexample: a run with a negative count that asks the holiday
    package and then returns normally, and a run with a negative count that
    fails only after it has asked. *)
Lemma negative_count_not_rejected_first :
  exec (working_date sample_source "2025-01-01" "2025-01-31"
                     None (Some (-1)) None None)
  = Ok (non_sundays 20089 20119)
  /\ lookups (working_date sample_source "2025-01-01" "2025-01-31"
                           None (Some (-1)) None None) = [[]]
  /\ exec (working_date sample_source "2024-12-20" "2025-01-10"
                        None (Some (-1)) None None)
     = Error InvalidExtensionValue
  /\ lookups (working_date sample_source "2024-12-20" "2025-01-10"
                           None (Some (-1)) None None) = [[2024]].
Proof. by_evaluation. Qed.

(** *** The branch a seasonal row takes *)

Lemma periods_of_idul_fitri i c n row :
  name row = IDUL_FITRI_2 -> periods_of i c n row = i.
Proof. intros H. unfold periods_of. now rewrite H. Qed.

Lemma periods_of_natal i c n row :
  name row = NATAL -> periods_of i c n row = c.
Proof. intros H. unfold periods_of. now rewrite H. Qed.

Lemma periods_of_other i c n row :
  name row <> IDUL_FITRI_2 -> name row <> NATAL -> periods_of i c n row = n.
Proof.
  intros H1 H2. unfold periods_of.
  destruct (String.eqb_spec (name row) IDUL_FITRI_2); [contradiction|].
  destruct (String.eqb_spec (name row) NATAL); [contradiction|reflexivity].
Qed.

(** With no negative count in play the loop appends, row by row, the days
    [date .. date + p - 1] under the label "extend <name>", [p] being the
    count of the branch the row takes. *)
Lemma extend_rows_ok i c n rows : forall acc,
  (forall row p, In row rows -> periods_of i c n row = Some p -> 0 <= p) ->
  extend_rows i c n rows acc
  = Ok (acc ++ flat_map
                 (fun row =>
                    match periods_of i c n row with
                    | None => []
                    | Some p => map (extend_row row)
                                    (zrange (date row) (Z.to_nat p))
                    end) rows)%list.
Proof.
  induction rows as [|row rest IH]; intros acc Hpos; simpl.
  - now rewrite app_nil_r.
  - assert (Hrest : forall r p, In r rest -> periods_of i c n r = Some p -> 0 <= p).
    { intros r p Hin. apply Hpos. now right. }
    destruct (periods_of i c n row) as [p|] eqn:Hp; [|now apply IH].
    unfold date_range_periods.
    destruct (Z.ltb_spec p 0) as [Hneg|_].
    + specialize (Hpos row p (or_introl eq_refl) Hp). lia.
    + rewrite IH by exact Hrest. now rewrite app_assoc.
Qed.

(** C3 (the code at a failing input): a row that the filter accepts as
    Christmas under a merged label is not extended by the Christmas count;
    the loop gives it the New Year count.  With christmas = 2 and new_year
    unset no record is generated and 26 December stays a working day; with
    christmas unset and new_year = 2 two records are generated. *)
Theorem merged_christmas_label_takes_new_year_count :
  str_contains_nocase NATAL (name merged_natal) = true
  /\ str_contains_nocase TAHUN_BARU (name merged_natal) = false
  /\ is_seasonal merged_natal = true
  /\ periods_of (Some 3) (Some 2) None merged_natal = None
  /\ extend_rows (Some 3) (Some 2) None [merged_natal] [] = Ok []
  /\ extend_rows (Some 3) None (Some 2) [merged_natal] []
     = Ok [extend_row merged_natal (days_from_civil 2024 12 25);
           extend_row merged_natal (days_from_civil 2024 12 26)]
  /\ result_map (existsb (Z.eqb (days_from_civil 2024 12 26)))
       (exec (working_date merged_source "2024-12-20" "2024-12-31"
                           None (Some 3) (Some 2) None))
     = Ok true.
Proof. by_evaluation. Qed.

(** *** The years that are looked up *)

(** A year is handed to the holiday package exactly when its 31 December
    lies in the range. *)
Lemma In_query_years (s e y : Z) :
  In y (query_years s e) <-> s <= year_end y <= e.
Proof.
  unfold query_years, date_range_YE. rewrite in_map_iff. split.
  - intros (d & Hy & Hd). apply filter_In in Hd. destruct Hd as [Hin Hrange].
    apply in_map_iff in Hin. destruct Hin as (y' & <- & _).
    rewrite year_of_year_end in Hy. subst y'.
    apply andb_true_iff in Hrange. destruct Hrange as [Hs He].
    apply Z.leb_le in Hs. apply Z.leb_le in He. lia.
  - intros [Hs He]. exists (year_end y). split; [apply year_of_year_end|].
    apply filter_In. split.
    + apply in_map. apply In_zrange.
      pose proof (year_of_monotone _ _ Hs) as H1.
      pose proof (year_of_monotone _ _ He) as H2.
      rewrite year_of_year_end in H1, H2. lia.
    + apply andb_true_iff. split; apply Z.leb_le; assumption.
Qed.

(** The year of the end date is handed over only when the end date is a
    31 December. *)
Lemma end_year_queried_iff (s e : Z) :
  In (year_of e) (query_years s e) <-> s <= e /\ e = year_end (year_of e).
Proof.
  rewrite In_query_years. pose proof (year_of_bracket e) as [_ Hhi]. lia.
Qed.

Lemma query_years_without_year_end (s e : Z) :
  (forall y, ~ s <= year_end y <= e) -> query_years s e = [].
Proof.
  intros H. destruct (query_years s e) as [|y l] eqn:Hq; [reflexivity|].
  exfalso. apply (H y). apply In_query_years. rewrite Hq. now left.
Qed.

(** When no 31 December lies in the range and the holiday package, asked
    for no year, answers with no holiday, nothing but the week mask removes
    days. *)
Lemma working_date_without_year_end
      src start end_ type ied_fitr christmas new_year s e :
  to_datetime start = Ok s ->
  to_datetime end_ = Ok e ->
  (forall y, ~ s <= year_end y <= e) ->
  src [] = Ok [] ->
  exec (working_date src start end_ type ied_fitr christmas new_year)
  = Ok (business_days s e type []).
Proof.
  intros Hs He Hno Hsrc.
  rewrite (exec_working_date _ _ _ _ _ _ _ _ _ Hs He).
  rewrite (query_years_without_year_end _ _ Hno), Hsrc. reflexivity.
Qed.

(** C1 (the code at a failing input): the year of the end date is handed to
    the holiday package only when the end date is a 31 December.  For
    2025-01-01 to 2025-01-31 no year end lies in the range, so no year at
    all is looked up, and 2025 is not among the years. *)
Theorem end_year_not_queried :
  (forall s e,
      In (year_of e) (query_years s e) <-> s <= e /\ e = year_end (year_of e))
  /\ to_datetime "2025-01-01" = Ok 20089
  /\ to_datetime "2025-01-31" = Ok 20119
  /\ year_of 20119 = 2025
  /\ year_end 2025 = 20453
  /\ query_years 20089 20119 = []
  /\ ~ In (year_of 20119) (query_years 20089 20119)
  /\ lookups (working_date sample_source "2025-01-01" "2025-01-31"
                           None (Some 3) None None) = [[]].
Proof.
  split; [exact end_year_queried_iff|].
  conjuncts; try (vm_compute; reflexivity).
  vm_compute. intros H. exact H.
Qed.

(** C2 (the code at a failing input): for 2025-01-01 to 2025-01-31, Monday
    to Saturday, ied_fitr = 3, the holiday package is asked for no year;
    when it then answers with no holiday, the result is every day of January
    2025 that is not a Sunday: 27 dates, 1 January among them. *)
Theorem january_2025_keeps_new_year (src : HolidaySource) :
  src [] = Ok [] ->
  exec (working_date src "2025-01-01" "2025-01-31" None (Some 3) None None)
  = Ok (non_sundays 20089 20119)
  /\ In (days_from_civil 2025 1 1) (non_sundays 20089 20119)
  /\ List.length (non_sundays 20089 20119) = 27%nat
  /\ exec (total_working_day src "2025-01-01" "2025-01-31"
                             None (Some 3) None None) = Ok 27%nat
  /\ lookups (working_date src "2025-01-01" "2025-01-31"
                           None (Some 3) None None) = [[]].
Proof.
  intros Hsrc.
  assert (Hs : to_datetime "2025-01-01" = Ok 20089) by (vm_compute; reflexivity).
  assert (He : to_datetime "2025-01-31" = Ok 20119) by (vm_compute; reflexivity).
  assert (Hq : query_years 20089 20119 = []) by (vm_compute; reflexivity).
  assert (Hwd : exec (working_date src "2025-01-01" "2025-01-31"
                                   None (Some 3) None None)
                = Ok (non_sundays 20089 20119)).
  { rewrite (exec_working_date _ _ _ _ _ _ _ _ _ Hs He), Hq, Hsrc.
    vm_compute. reflexivity. }
  split; [exact Hwd|]. split; [vm_compute; tauto|].
  split; [vm_compute; reflexivity|]. split.
  - rewrite exec_total_working_day, Hwd. vm_compute. reflexivity.
  - now rewrite (lookups_working_date _ _ _ _ _ _ _ _ _ Hs He), Hq.
Qed.

(** *** The theorems at concrete inputs *)

Lemma working_date_increasing_in_range_witness :
  to_datetime "2024-12-20" = Ok 20077
  /\ to_datetime "2025-01-10" = Ok 20098
  /\ 20077 <= 20098
  /\ exec (working_date sample_source "2024-12-20" "2025-01-10"
                        None (Some 3) None (Some 2))
     = Ok [20077; 20078; 20080; 20081; 20083; 20084; 20085; 20087; 20088;
           20089; 20090; 20091; 20092; 20094; 20095; 20096; 20097; 20098]
  /\ StronglySorted Z.lt
       [20077; 20078; 20080; 20081; 20083; 20084; 20085; 20087; 20088;
        20089; 20090; 20091; 20092; 20094; 20095; 20096; 20097; 20098]
  /\ Forall (fun d => 20077 <= d <= 20098)
       [20077; 20078; 20080; 20081; 20083; 20084; 20085; 20087; 20088;
        20089; 20090; 20091; 20092; 20094; 20095; 20096; 20097; 20098].
Proof.
  split; [vm_compute; reflexivity|].
  split; [vm_compute; reflexivity|].
  split; [lia|].
  split; [vm_compute; reflexivity|].
  apply (working_date_increasing_in_range
           sample_source "2024-12-20" "2025-01-10" None (Some 3) None (Some 2)
           20077 20098).
  - vm_compute; reflexivity.
  - vm_compute; reflexivity.
  - lia.
  - vm_compute; reflexivity.
Defined.

Lemma reversed_range_is_empty_witness :
  to_datetime "2025-01-31" = Ok 20119
  /\ to_datetime "2025-01-01" = Ok 20089
  /\ 20089 < 20119
  /\ sample_source [] = Ok []
  /\ exec (working_date sample_source "2025-01-31" "2025-01-01"
                        (Some 1) (Some 3) (Some (-2)) None) = Ok []
  /\ exec (total_working_day sample_source "2025-01-31" "2025-01-01"
                             (Some 1) (Some 3) (Some (-2)) None) = Ok 0%nat.
Proof.
  split; [vm_compute; reflexivity|].
  split; [vm_compute; reflexivity|].
  split; [lia|].
  split; [reflexivity|].
  apply (reversed_range_is_empty
           sample_source "2025-01-31" "2025-01-01" (Some 1) (Some 3)
           (Some (-2)) None 20119 20089).
  - vm_compute; reflexivity.
  - vm_compute; reflexivity.
  - lia.
  - reflexivity.
Defined.

Lemma january_2025_keeps_new_year_witness :
  sample_source [] = Ok []
  /\ In {| date := days_from_civil 2025 1 1; name := TAHUN_BARU |}
        (sample_year 2025)
  /\ exec (working_date sample_source "2025-01-01" "2025-01-31"
                        None (Some 3) None None)
     = Ok (non_sundays 20089 20119)
  /\ In (days_from_civil 2025 1 1) (non_sundays 20089 20119)
  /\ List.length (non_sundays 20089 20119) = 27%nat
  /\ exec (total_working_day sample_source "2025-01-01" "2025-01-31"
                             None (Some 3) None None) = Ok 27%nat
  /\ lookups (working_date sample_source "2025-01-01" "2025-01-31"
                           None (Some 3) None None) = [[]].
Proof.
  split; [reflexivity|].
  split; [left; reflexivity|].
  apply (january_2025_keeps_new_year sample_source).
  reflexivity.
Defined.

End Properties.

(** ** Further behaviour of the three functions *)
Module Behaviour.
Import Calendar Pandas CalendarFacts PandasFacts IdWorkingDays Properties.

(** *** The holiday frame *)

Lemma holiday_frame_ok_counts i c n items h :
  holiday_frame i c n items = Ok h ->
  forall row p, In row items -> is_seasonal row = true ->
                periods_of i c n row = Some p -> 0 <= p.
Proof.
  intros Hh row p Hin Hseason Hp.
  destruct (Z_lt_le_dec p 0) as [Hneg|Hpos]; [|exact Hpos].
  rewrite holiday_frame_negative in Hh; [discriminate|].
  exists row, p. auto.
Qed.

Lemma holiday_frame_ok_eq i c n items h :
  holiday_frame i c n items = Ok h ->
  h = sort_values_date
        (sorted items
         ++ flat_map
              (fun row =>
                 match periods_of i c n row with
                 | None => []
                 | Some p => map (extend_row row) (zrange (date row) (Z.to_nat p))
                 end) (filter is_seasonal (sorted items))).
Proof.
  intros Hh. pose proof (holiday_frame_ok_counts _ _ _ _ _ Hh) as Hpos.
  unfold holiday_frame in Hh. rewrite extend_rows_ok in Hh.
  - simpl in Hh. now injection Hh as <-.
  - intros row p Hin. apply filter_In in Hin. destruct Hin as [Hin Hs].
    apply In_sort_by in Hin. now apply Hpos.
Qed.

Lemma In_holiday_frame i c n items h :
  holiday_frame i c n items = Ok h ->
  forall r,
    In r h <->
    In r items
    \/ exists row p d,
         In row items /\ is_seasonal row = true
         /\ periods_of i c n row = Some p
         /\ date row <= d < date row + p
         /\ r = {| date := d; name := ("extend " ++ name row)%string |}.
Proof.
  intros Hh r. rewrite (holiday_frame_ok_eq _ _ _ _ _ Hh).
  unfold sort_values_date, sorted.
  rewrite In_sort_by, in_app_iff, In_sort_by, in_flat_map.
  split; (intros [Hbase|Hext]; [now left|right]).
  - destruct Hext as (row & Hrow & Hr). apply filter_In in Hrow.
    destruct Hrow as [Hrow Hseason]. apply In_sort_by in Hrow.
    destruct (periods_of i c n row) as [p|] eqn:Hp; [|destruct Hr].
    apply in_map_iff in Hr. destruct Hr as (d & <- & Hd).
    apply In_zrange in Hd. exists row, p, d. repeat split; auto; lia.
  - destruct Hext as (row & p & d & Hrow & Hseason & Hp & Hd & ->).
    exists row. split.
    + apply filter_In. split; [now apply In_sort_by | exact Hseason].
    + rewrite Hp. apply in_map_iff. exists d. split; [reflexivity|].
      apply In_zrange. lia.
Qed.

Lemma holiday_frame_dates i c n items h :
  holiday_frame i c n items = Ok h ->
  forall d, In d (map date h)
            <-> In d (map date items) \/ extension_covers i c n items d.
Proof.
  intros Hh d. rewrite in_map_iff. split.
  - intros (r & <- & Hr). apply (In_holiday_frame _ _ _ _ _ Hh) in Hr.
    destruct Hr as [Hbase|(row & p & d & Hrow & Hseason & Hp & Hd & ->)].
    + left. now apply in_map.
    + right. exists row, p. auto.
  - intros [Hbase|(row & p & Hrow & Hseason & Hp & Hd)].
    + apply in_map_iff in Hbase. destruct Hbase as (r & <- & Hr).
      exists r. split; [reflexivity|].
      apply (In_holiday_frame _ _ _ _ _ Hh). now left.
    + exists (extend_row row d). split; [reflexivity|].
      apply (In_holiday_frame _ _ _ _ _ Hh). right.
      exists row, p, d. auto.
Qed.

(** X12: in a successful run the rows of the holiday frame are the rows
    answered by the holiday package together with, for each seasonal row
    whose branch has a count [p], the rows dated [date .. date + p - 1] and
    labelled "extend <name>"; nothing else enters the frame. *)
Theorem holiday_frame_rows i c n items h :
  holiday_frame i c n items = Ok h ->
  forall r,
    In r h <->
    In r items
    \/ exists row p d,
         In row items /\ is_seasonal row = true
         /\ periods_of i c n row = Some p
         /\ date row <= d < date row + p
         /\ r = {| date := d; name := ("extend " ++ name row)%string |}.
Proof. exact (In_holiday_frame i c n items h). Qed.

(** *** What [working_date] returns *)

Lemma In_business_days s e type holiday d :
  In d (business_days s e type holiday) <->
  s <= d <= e
  /\ nth (Z.to_nat (weekday d)) (workday_type type) false = true
  /\ ~ In d (map date holiday).
Proof. unfold business_days. now rewrite In_date_range_cbd. Qed.

Lemma In_working_date src start end_ type i c n s e items wd :
  to_datetime start = Ok s ->
  to_datetime end_ = Ok e ->
  src (query_years s e) = Ok items ->
  exec (working_date src start end_ type i c n) = Ok wd ->
  forall d,
    In d wd <->
    s <= d <= e
    /\ nth (Z.to_nat (weekday d)) (workday_type type) false = true
    /\ ~ In d (map date items)
    /\ ~ extension_covers i c n items d.
Proof.
  intros Hs He Hsrc Hwd d.
  rewrite (exec_working_date _ _ _ _ _ _ _ _ _ Hs He), Hsrc in Hwd.
  destruct (holiday_frame i c n items) as [h|x] eqn:Hh; [|discriminate].
  simpl in Hwd. injection Hwd as <-.
  rewrite In_business_days, (holiday_frame_dates _ _ _ _ _ Hh). tauto.
Qed.

(** X2: when the holiday package answers, a day is returned by
    [working_date] exactly when it lies between start and end (both
    included), its weekday is in the week mask, it is not the date of a row
    of the answer, and it is not among the days generated for a seasonal
    row. *)
Theorem working_date_membership src start end_ type i c n s e items wd :
  to_datetime start = Ok s ->
  to_datetime end_ = Ok e ->
  src (query_years s e) = Ok items ->
  exec (working_date src start end_ type i c n) = Ok wd ->
  forall d,
    In d wd <->
    s <= d <= e
    /\ nth (Z.to_nat (weekday d)) (workday_type type) false = true
    /\ ~ In d (map date items)
    /\ ~ extension_covers i c n items d.
Proof. exact (In_working_date src start end_ type i c n s e items wd). Qed.

Lemma holiday_frame_succeeds i c n items :
  ~ negative_branch i c n items -> exists h, holiday_frame i c n items = Ok h.
Proof.
  intros Hno. destruct (holiday_frame i c n items) as [h|x] eqn:Hh.
  - now exists h.
  - apply holiday_frame_error in Hh. destruct Hh as [_ Hneg]. contradiction.
Qed.

(** *** Failures *)

(** X11: when the holiday package fails, each of the three functions fails
    with the same error; no partial result is returned. *)
Theorem source_failure_propagates src start end_ type i c n s e x :
  to_datetime start = Ok s ->
  to_datetime end_ = Ok e ->
  src (query_years s e) = Error x ->
  exec (working_date src start end_ type i c n) = Error x
  /\ exec (total_working_day src start end_ type i c n) = Error x
  /\ exec (working_day src start end_ type i c n) = Error x.
Proof.
  intros Hs He Hsrc.
  assert (Hwd : exec (working_date src start end_ type i c n) = Error x)
    by now rewrite (exec_working_date _ _ _ _ _ _ _ _ _ Hs He), Hsrc.
  now rewrite exec_total_working_day, exec_working_day, Hwd.
Qed.

(** *** Counts that add no day *)

Lemma one_as_unset_some (o : option Z) (p : Z) :
  one_as_unset o = Some p <-> o = Some p /\ p <> 1.
Proof.
  destruct o as [q|]; simpl; [|split; [discriminate | intros [H _]; discriminate]].
  destruct (Z.eq_dec q 1) as [->|Hne]; simpl.
  - split; [discriminate | intros [[= <-] H]; contradiction].
  - assert (Hu : one_as_unset (Some q) = Some q).
    { destruct q as [|[q|q|]|q]; try reflexivity. contradiction. }
    simpl in Hu. rewrite Hu. split.
    + intros [= <-]. auto.
    + now intros [H _].
Qed.

Lemma periods_of_one_as_unset i c n row :
  periods_of (one_as_unset i) (one_as_unset c) (one_as_unset n) row
  = one_as_unset (periods_of i c n row).
Proof.
  unfold periods_of.
  destruct (String.eqb (name row) IDUL_FITRI_2); [reflexivity|].
  destruct (String.eqb (name row) NATAL); reflexivity.
Qed.

Lemma negative_branch_one_as_unset i c n items :
  negative_branch (one_as_unset i) (one_as_unset c) (one_as_unset n) items
  <-> negative_branch i c n items.
Proof.
  split; intros (row & p & Hin & Hseason & Hp & Hneg); exists row, p;
    rewrite periods_of_one_as_unset in *; repeat split; auto.
  - now apply one_as_unset_some in Hp.
  - apply one_as_unset_some. split; [exact Hp | lia].
Qed.

Lemma holiday_dates_one_as_unset i c n items d :
  In d (map date items)
  \/ extension_covers (one_as_unset i) (one_as_unset c) (one_as_unset n) items d
  <-> In d (map date items) \/ extension_covers i c n items d.
Proof.
  split; (intros [Hbase|(row & p & Hin & Hseason & Hp & Hd)]; [now left|]).
  - right. exists row, p. rewrite periods_of_one_as_unset in Hp.
    apply one_as_unset_some in Hp. destruct Hp as [Hp _]. auto.
  - destruct (Z.eq_dec p 1) as [->|Hne].
    + left. replace d with (date row) by lia. now apply in_map.
    + right. exists row, p. rewrite periods_of_one_as_unset.
      repeat split; auto; try lia. now apply one_as_unset_some.
Qed.

Lemma existsb_eqb_In (d : Z) (l : list Z) :
  existsb (Z.eqb d) l = true <-> In d l.
Proof.
  rewrite existsb_exists. split.
  - intros (x & Hx & Heq). apply Z.eqb_eq in Heq. now subst x.
  - intros H. exists d. split; [exact H | apply Z.eqb_refl].
Qed.

(** Only the set of holiday dates matters to the business days. *)
Lemma business_days_same_dates s e type h1 h2 :
  (forall d, In d (map date h1) <-> In d (map date h2)) ->
  business_days s e type h1 = business_days s e type h2.
Proof.
  intros H. unfold business_days, date_range_cbd. apply filter_ext.
  intros d. unfold is_on_offset. cbn [weekmask holidays]. f_equal. f_equal.
  destruct (existsb (Z.eqb d) (map date h1)) eqn:H1,
           (existsb (Z.eqb d) (map date h2)) eqn:H2; try reflexivity.
  - apply existsb_eqb_In, H, existsb_eqb_In in H1. congruence.
  - apply existsb_eqb_In, H, existsb_eqb_In in H2. congruence.
Qed.

Lemma frame_days_one_as_unset s e type i c n items :
  result_map (business_days s e type)
    (holiday_frame (one_as_unset i) (one_as_unset c) (one_as_unset n) items)
  = result_map (business_days s e type) (holiday_frame i c n items).
Proof.
  destruct (holiday_frame (one_as_unset i) (one_as_unset c) (one_as_unset n)
                          items) as [h1|x1] eqn:H1,
           (holiday_frame i c n items) as [h2|x2] eqn:H2; simpl.
  - f_equal. apply business_days_same_dates. intros d.
    rewrite (holiday_frame_dates _ _ _ _ _ H1), (holiday_frame_dates _ _ _ _ _ H2).
    apply holiday_dates_one_as_unset.
  - apply holiday_frame_error in H2. destruct H2 as [_ Hneg].
    apply (proj2 (negative_branch_one_as_unset i c n items)) in Hneg.
    apply holiday_frame_negative in Hneg. congruence.
  - apply holiday_frame_error in H1. destruct H1 as [_ Hneg].
    apply (proj1 (negative_branch_one_as_unset i c n items)) in Hneg.
    apply holiday_frame_negative in Hneg. congruence.
  - apply holiday_frame_error in H1. apply holiday_frame_error in H2.
    destruct H1 as [-> _], H2 as [-> _]. reflexivity.
Qed.

Lemma working_date_one_as_unset src start end_ type i c n :
  same_run
    (working_date src start end_ type
                  (one_as_unset i) (one_as_unset c) (one_as_unset n))
    (working_date src start end_ type i c n).
Proof.
  intros log. rewrite !working_date_run.
  destruct (to_datetime start) as [s|x]; [|reflexivity].
  destruct (to_datetime end_) as [e|x]; [|reflexivity].
  destruct (src (query_years s e)) as [items|x]; [|reflexivity].
  now rewrite frame_days_one_as_unset.
Qed.

Lemma agree_one_as_unset src start end_ type i c n i' c' n' :
  one_as_unset i = one_as_unset i' ->
  one_as_unset c = one_as_unset c' ->
  one_as_unset n = one_as_unset n' ->
  agree src start end_ type i c n i' c' n'.
Proof.
  intros Hi Hc Hn.
  assert (H : same_run (working_date src start end_ type i c n)
                       (working_date src start end_ type i' c' n')).
  { intros log.
    rewrite <- (working_date_one_as_unset src start end_ type i c n log).
    rewrite <- (working_date_one_as_unset src start end_ type i' c' n' log).
    now rewrite Hi, Hc, Hn. }
  split; [exact H | now apply derived_same_counts].
Qed.

(** X4: a count of exactly 1 removes no further day: the one generated row
    carries the date of the seasonal row itself, which the frame already
    holds.  The three functions run as with that count left unset, whatever
    the other two counts are. *)
Theorem one_day_extension_is_unset src start end_ type i c n :
  agree src start end_ type (Some 1) c n None c n
  /\ agree src start end_ type i (Some 1) n i None n
  /\ agree src start end_ type i c (Some 1) i c None.
Proof. repeat split; apply agree_one_as_unset; reflexivity. Qed.

(** *** Extensions only remove days *)

Lemma increasing_NoDup (l : list Z) : StronglySorted Z.lt l -> NoDup l.
Proof.
  induction 1 as [|x l Hl IH Hx]; constructor; [|exact IH].
  intros Hin. rewrite Forall_forall in Hx. specialize (Hx x Hin). lia.
Qed.

Lemma periods_of_unset row : periods_of None None None row = None.
Proof.
  unfold periods_of. destruct (String.eqb (name row) IDUL_FITRI_2);
    [|destruct (String.eqb (name row) NATAL)]; reflexivity.
Qed.

Lemma extension_covers_unset items d :
  ~ extension_covers None None None items d.
Proof.
  intros (row & p & _ & _ & Hp & _). rewrite periods_of_unset in Hp.
  discriminate.
Qed.

(** X5: whatever the counts, a successful run returns only days that the
    run with all three counts unset returns as well, so it never returns
    more days than that run. *)
Theorem extensions_only_remove_days src start end_ type i c n wd :
  exec (working_date src start end_ type i c n) = Ok wd ->
  exists wd0,
    exec (working_date src start end_ type None None None) = Ok wd0
    /\ incl wd wd0
    /\ (List.length wd <= List.length wd0)%nat.
Proof.
  unfold exec. rewrite !working_date_run.
  destruct (to_datetime start) as [s|x]; [|discriminate].
  destruct (to_datetime end_) as [e|x]; [|discriminate]. cbn [fst].
  destruct (src (query_years s e)) as [items|x]; [|discriminate].
  destruct (holiday_frame i c n items) as [h|x] eqn:Hh; [|discriminate].
  simpl. intros [= <-].
  destruct (holiday_frame_succeeds None None None items) as [h0 Hh0].
  { intros (row & p & _ & _ & Hp & _). rewrite periods_of_unset in Hp.
    discriminate. }
  rewrite Hh0. simpl. exists (business_days s e type h0).
  assert (Hincl : incl (business_days s e type h) (business_days s e type h0)).
  { intros d Hd. apply In_business_days in Hd. apply In_business_days.
    destruct Hd as (Hr & Hm & Hno). repeat split; try tauto.
    intros Hin. apply Hno.
    apply (holiday_frame_dates _ _ _ _ _ Hh0) in Hin.
    apply (holiday_frame_dates _ _ _ _ _ Hh).
    destruct Hin as [Hb|Hc]; [now left|].
    now apply extension_covers_unset in Hc. }
  split; [reflexivity|]. split; [exact Hincl|].
  apply NoDup_incl_length; [|exact Hincl].
  apply increasing_NoDup, business_days_increasing.
Qed.

(** *** The two week masks *)

Lemma weekday_cases (d : Z) :
  weekday d = 0 \/ weekday d = 1 \/ weekday d = 2 \/ weekday d = 3
  \/ weekday d = 4 \/ weekday d = 5 \/ weekday d = 6.
Proof. pose proof (weekday_range d). lia. Qed.

Lemma five_day_mask_split (d : Z) :
  nth (Z.to_nat (weekday d)) MON_FRI false
  = nth (Z.to_nat (weekday d)) MON_SAT false && not_saturday d.
Proof.
  unfold not_saturday.
  destruct (weekday_cases d) as [H|[H|[H|[H|[H|[H|H]]]]]];
    rewrite H; reflexivity.
Qed.


Lemma filter_filter_andb {A} (f g : A -> bool) (l : list A) :
  filter f (filter g l) = filter (fun x => g x && f x) l.
Proof.
  induction l as [|x l IH]; simpl; [reflexivity|].
  destruct (g x); simpl; [destruct (f x)|]; now rewrite IH.
Qed.

Lemma business_days_five_of_six s e t holiday :
  t <> 0 ->
  business_days s e (Some t) holiday
  = filter not_saturday (business_days s e None holiday).
Proof.
  intros Ht. unfold business_days, date_range_cbd.
  rewrite filter_filter_andb. apply filter_ext. intros d.
  unfold is_on_offset. cbn [weekmask holidays].
  rewrite (workday_type_nonzero t Ht). simpl workday_type.
  rewrite five_day_mask_split.
  destruct (nth (Z.to_nat (weekday d)) MON_SAT false), (not_saturday d),
    (existsb (Z.eqb d) (map date holiday)); reflexivity.
Qed.

(** X6: for the same arguments the Monday-to-Friday result (any type other
    than unset and 0) is the Monday-to-Saturday result with its Saturdays
    removed; both runs fail together. *)
Theorem five_day_is_six_day_without_saturdays
        src start end_ t i c n :
  t <> 0 ->
  exec (working_date src start end_ (Some t) i c n)
  = result_map (filter not_saturday)
      (exec (working_date src start end_ None i c n)).
Proof.
  intros Ht. unfold exec. rewrite !working_date_run.
  destruct (to_datetime start) as [s|x]; [|reflexivity].
  destruct (to_datetime end_) as [e|x]; [|reflexivity]. cbn [fst].
  destruct (src (query_years s e)) as [items|x]; [|reflexivity].
  destruct (holiday_frame i c n items) as [h|x]; [|reflexivity].
  simpl. now rewrite business_days_five_of_six.
Qed.


(** *** The years that are looked up, in general *)

Lemma query_years_filter (s e : Z) (l : list Z) :
  map year_of (filter (fun d => (s <=? d) && (d <=? e)) (map year_end l))
  = filter (fun y => (s <=? year_end y) && (year_end y <=? e)) l.
Proof.
  induction l as [|y l IH]; simpl; [reflexivity|].
  destruct ((s <=? year_end y) && (year_end y <=? e)); simpl;
    [rewrite year_of_year_end|]; now rewrite IH.
Qed.

Lemma query_years_increasing (s e : Z) : StronglySorted Z.lt (query_years s e).
Proof.
  unfold query_years, date_range_YE. rewrite query_years_filter.
  apply filter_increasing, zrange_increasing.
Qed.

(** X9: the years handed to the holiday package are, in increasing order and
    without repetition, exactly the years whose 31 December lies between
    start and end (both included). *)
Theorem query_years_are_year_ends_in_range (s e : Z) :
  StronglySorted Z.lt (query_years s e)
  /\ forall y, In y (query_years s e) <-> s <= year_end y <= e.
Proof.
  split; [apply query_years_increasing | intros y; apply In_query_years].
Qed.

(** *** The count *)

Lemma length_zrange (a : Z) (n : nat) : List.length (zrange a n) = n.
Proof. unfold zrange. now rewrite length_map, length_seq. Qed.

Lemma length_business_days s e type holiday :
  (List.length (business_days s e type holiday) <= Z.to_nat (e - s + 1))%nat.
Proof.
  unfold business_days, date_range_cbd.
  etransitivity; [apply filter_length_le|].
  unfold date_range_days. now rewrite length_zrange.
Qed.

(** X10: [total_working_day] never exceeds the number of calendar days from
    start to end, both included. *)
Theorem total_working_day_at_most_range
        src start end_ type i c n s e total :
  to_datetime start = Ok s ->
  to_datetime end_ = Ok e ->
  s <= e ->
  exec (total_working_day src start end_ type i c n) = Ok total ->
  Z.of_nat total <= e - s + 1.
Proof.
  intros Hs He Hle. rewrite exec_total_working_day.
  destruct (exec (working_date src start end_ type i c n)) as [wd|x] eqn:Hwd;
    [|discriminate].
  simpl. intros [= <-]. rewrite size_length.
  destruct (working_date_ok _ _ _ _ _ _ _ _ Hwd)
    as (s' & e' & holiday & Hs' & He' & ->).
  rewrite Hs in Hs'. rewrite He in He'. injection Hs' as <-. injection He' as <-.
  pose proof (length_business_days s e type holiday). lia.
Qed.

(** *** The monthly breakdown *)

Lemma count_key_keys (k x : Z) (groups : list (Z * nat)) :
  In x (map fst (count_key k groups)) -> x = k \/ In x (map fst groups).
Proof.
  induction groups as [|[k' m] rest IH]; simpl.
  - intros [H|[]]. now left.
  - destruct (k <? k'); [|destruct (k =? k')]; simpl.
    + intros [H|[H|H]]; auto.
    + intros [H|H]; auto.
    + intros [H|H]; [auto|]. destruct (IH H); auto.
Qed.

Lemma count_key_increasing (k : Z) (groups : list (Z * nat)) :
  StronglySorted Z.lt (map fst groups) ->
  StronglySorted Z.lt (map fst (count_key k groups)).
Proof.
  induction groups as [|[k' m] rest IH]; simpl; intros Hs.
  - repeat constructor.
  - inversion Hs as [|? ? Hrest Hhead]; subst.
    destruct (Z.ltb_spec k k') as [Hlt|Hge].
    + simpl. constructor; [exact Hs|].
      constructor; [exact Hlt|].
      rewrite Forall_forall in *. intros x Hx. specialize (Hhead x Hx). lia.
    + destruct (Z.eqb_spec k k') as [->|Hne]; simpl.
      * exact Hs.
      * constructor; [now apply IH|].
        rewrite Forall_forall in *. intros x Hx.
        destruct (count_key_keys _ _ _ Hx) as [->|Hin]; [lia|now apply Hhead].
Qed.

Lemma count_key_positive (k : Z) (groups : list (Z * nat)) :
  Forall (fun g => (1 <= snd g)%nat) groups ->
  Forall (fun g => (1 <= snd g)%nat) (count_key k groups).
Proof.
  induction groups as [|[k' m] rest IH]; simpl; intros Hp.
  - repeat constructor.
  - inversion Hp as [|? ? Hhead Hrest]; subst.
    destruct (k <? k'); [|destruct (k =? k')].
    + constructor; [simpl; lia | exact Hp].
    + constructor; [simpl; lia | exact Hrest].
    + constructor; [exact Hhead | now apply IH].
Qed.

Lemma group_count_cons (k k' : Z) (m : nat) (groups : list (Z * nat)) :
  group_count k ((k', m) :: groups)
  = ((if (k' =? k)%Z then m else 0) + group_count k groups)%nat.
Proof. unfold group_count. simpl. destruct (k' =? k); reflexivity. Qed.

Lemma group_count_count_key (k k' : Z) (groups : list (Z * nat)) :
  group_count k (count_key k' groups)
  = (group_count k groups + (if (k' =? k)%Z then 1 else 0))%nat.
Proof.
  induction groups as [|[k'' m] rest IH]; simpl.
  - rewrite group_count_cons. unfold group_count. simpl. lia.
  - destruct (Z.ltb_spec k' k'') as [Hlt|Hge].
    + rewrite !group_count_cons. lia.
    + destruct (Z.eqb_spec k' k'') as [->|Hne].
      * rewrite !group_count_cons. destruct (k'' =? k); lia.
      * rewrite !group_count_cons, IH. lia.
Qed.

Lemma group_count_fold (k : Z) (keys : list Z) : forall groups,
  group_count k (fold_left (fun g x => count_key x g) keys groups)
  = (group_count k groups
     + List.length (filter (fun x => (x =? k)%Z) keys))%nat.
Proof.
  induction keys as [|x keys IH]; intros groups; simpl; [lia|].
  rewrite IH, group_count_count_key. destruct (x =? k); simpl; lia.
Qed.

Lemma fold_count_key_invariant (keys : list Z) : forall groups,
  StronglySorted Z.lt (map fst groups) ->
  Forall (fun g => (1 <= snd g)%nat) groups ->
  StronglySorted Z.lt
    (map fst (fold_left (fun g x => count_key x g) keys groups))
  /\ Forall (fun g => (1 <= snd g)%nat)
       (fold_left (fun g x => count_key x g) keys groups).
Proof.
  induction keys as [|x keys IH]; intros groups Hs Hp; simpl; [auto|].
  apply IH; [now apply count_key_increasing | now apply count_key_positive].
Qed.

(** Under strictly increasing keys a row holds the whole count of its key. *)
Lemma group_count_In (k : Z) (m : nat) (groups : list (Z * nat)) :
  StronglySorted Z.lt (map fst groups) ->
  In (k, m) groups -> group_count k groups = m.
Proof.
  induction groups as [|[k' m'] rest IH]; simpl; intros Hs Hin; [destruct Hin|].
  inversion Hs as [|? ? Hrest Hhead]; subst. rewrite group_count_cons.
  rewrite Forall_forall in Hhead.
  destruct Hin as [[= -> ->]|Hin].
  - rewrite Z.eqb_refl.
    assert (Hz : group_count k rest = 0%nat).
    { unfold group_count. rewrite filter_none; [reflexivity|].
      intros [k2 m2] H2. simpl. apply Z.eqb_neq.
      specialize (Hhead k2 (in_map fst _ _ H2)). simpl in Hhead. lia. }
    lia.
  - specialize (Hhead k (in_map fst _ _ Hin)). simpl in Hhead.
    destruct (Z.eqb_spec k' k); [lia|]. simpl. now apply IH.
Qed.

Lemma group_count_positive (k : Z) (groups : list (Z * nat)) :
  (1 <= group_count k groups)%nat -> exists m, In (k, m) groups.
Proof.
  induction groups as [|[k' m'] rest IH]; intros H.
  - unfold group_count in H. simpl in H. lia.
  - rewrite group_count_cons in H.
    destruct (Z.eqb_spec k' k) as [->|Hne].
    + exists m'. now left.
    + destruct (IH H) as [m Hm]. exists m. now right.
Qed.

Lemma filter_map_length {A} (f : A -> Z) (k : Z) (l : list A) :
  List.length (filter (fun x => x =? k) (map f l))
  = List.length (filter (fun a => f a =? k) l).
Proof.
  induction l as [|a l IH]; simpl; [reflexivity|].
  destruct (f a =? k); simpl; now rewrite IH.
Qed.

(** [groupby(key).size()] lists each key that occurs, once and in increasing
    order, with the number of its occurrences. *)
Lemma groupby_size_spec (keys : list Z) :
  StronglySorted Z.lt (map fst (groupby_size keys))
  /\ forall k m,
       In (k, m) (groupby_size keys) <->
       m = List.length (filter (fun x => x =? k) keys) /\ (1 <= m)%nat.
Proof.
  unfold groupby_size.
  destruct (fold_count_key_invariant keys [] (SSorted_nil _) (Forall_nil _))
    as [Hs Hp].
  split; [exact Hs|]. intros k m.
  pose proof (group_count_fold k keys []) as Hc.
  change (group_count k []) with 0%nat in Hc. simpl in Hc.
  split.
  - intros Hin. rewrite <- Hc, (group_count_In _ _ _ Hs Hin).
    split; [reflexivity|].
    rewrite Forall_forall in Hp. exact (Hp _ Hin).
  - intros [-> Hpos]. rewrite <- Hc in Hpos |- *.
    destruct (group_count_positive _ _ Hpos) as [m Hm].
    now rewrite (group_count_In _ _ _ Hs Hm).
Qed.

(** X8: the breakdown returned by [working_day] has one row for each month
    in which [working_date] returns at least one date, the months in
    strictly increasing order, each with the number of returned dates of
    that month; a month without a returned date has no row. *)
Theorem working_day_rows src start end_ type i c n rows :
  exec (working_day src start end_ type i c n) = Ok rows ->
  exists wd,
    exec (working_date src start end_ type i c n) = Ok wd
    /\ StronglySorted Z.lt (map fst rows)
    /\ forall k m,
         In (k, m) rows <-> m = rows_in_month k wd /\ (1 <= m)%nat.
Proof.
  rewrite exec_working_day.
  destruct (exec (working_date src start end_ type i c n)) as [wd|x];
    [|discriminate].
  simpl. intros [= <-]. exists wd. split; [reflexivity|].
  destruct (groupby_size_spec (map to_period_M wd)) as [Hs Hin].
  split; [exact Hs|]. intros k m. rewrite Hin. unfold rows_in_month.
  now rewrite filter_map_length.
Qed.

(** *** Days generated for rows under the exact labels *)

Lemma natal_is_seasonal row : name row = NATAL -> is_seasonal row = true.
Proof. intros H. unfold is_seasonal. rewrite H. reflexivity. Qed.

Lemma idul_fitri_is_seasonal row :
  name row = IDUL_FITRI_2 -> is_seasonal row = true.
Proof. intros H. unfold is_seasonal. rewrite H. reflexivity. Qed.

(** X13: in a successful run, for a row of the answer labelled exactly as
    the second day of Idul Fitri (estimated), exactly "Hari Raya Natal", or
    with a label that contains "Tahun Baru Masehi" and is neither of the
    two, no day from the row's date up to [p - 1] days later is returned,
    [p] being ied_fitr, christmas or new_year respectively. *)
Theorem exact_label_extension_days_excluded
        src start end_ type i c n s e items wd row p d :
  to_datetime start = Ok s ->
  to_datetime end_ = Ok e ->
  src (query_years s e) = Ok items ->
  exec (working_date src start end_ type i c n) = Ok wd ->
  In row items ->
  date row <= d < date row + p ->
  (name row = IDUL_FITRI_2 /\ i = Some p)
  \/ (name row = NATAL /\ c = Some p)
  \/ (str_contains_nocase TAHUN_BARU (name row) = true
      /\ name row <> IDUL_FITRI_2 /\ name row <> NATAL /\ n = Some p) ->
  ~ In d wd.
Proof.
  intros Hs He Hsrc Hwd Hrow Hd Hlabel Hin.
  apply (In_working_date _ _ _ _ _ _ _ _ _ _ _ Hs He Hsrc Hwd) in Hin.
  destruct Hin as (_ & _ & _ & Hno). apply Hno. exists row, p.
  destruct Hlabel as [[Hn ->]|[[Hn ->]|(Hc & Hn1 & Hn2 & ->)]].
  - repeat split; try tauto; try lia.
    + now apply idul_fitri_is_seasonal.
    + now apply periods_of_idul_fitri.
  - repeat split; try tauto; try lia.
    + now apply natal_is_seasonal.
    + now apply periods_of_natal.
  - repeat split; try tauto; try lia.
    + unfold is_seasonal. rewrite Hc. now rewrite !orb_true_r.
    + now apply periods_of_other.
Qed.

(** *** The reversed range *)

(** X14: when start is after end and the holiday package, asked for no
    year, answers with no holiday, the monthly breakdown of [working_day] is
    empty and nothing is raised. *)
Theorem reversed_range_has_no_months src start end_ type i c n s e :
  to_datetime start = Ok s ->
  to_datetime end_ = Ok e ->
  e < s ->
  src [] = Ok [] ->
  exec (working_day src start end_ type i c n) = Ok [].
Proof.
  intros Hs He Hlt Hsrc.
  rewrite exec_working_day, (exec_working_date _ _ _ _ _ _ _ _ _ Hs He).
  rewrite query_years_empty by exact Hlt. rewrite Hsrc.
  unfold holiday_frame. simpl.
  now rewrite business_days_empty by exact Hlt.
Qed.

(** *** The theorems of this part at concrete inputs *)

Ltac run := vm_compute; reflexivity.

Lemma holiday_frame_rows_witness :
  holiday_frame (Some 2) None None [idul_fitri_row]
  = Ok [idul_fitri_row; extend_row idul_fitri_row 10;
        extend_row idul_fitri_row 11]
  /\ forall r,
       In r [idul_fitri_row; extend_row idul_fitri_row 10;
             extend_row idul_fitri_row 11] <->
       In r [idul_fitri_row]
       \/ exists row p d,
            In row [idul_fitri_row] /\ is_seasonal row = true
            /\ periods_of (Some 2) None None row = Some p
            /\ date row <= d < date row + p
            /\ r = {| date := d; name := ("extend " ++ name row)%string |}.
Proof.
  split; [run|].
  apply (holiday_frame_rows (Some 2) None None [idul_fitri_row]). run.
Defined.

Lemma working_date_membership_witness :
  exec (working_date sample_source "2024-12-20" "2025-01-10"
                     None None (Some 3) None) = Ok sample_dates_christmas
  /\ forall d,
       In d sample_dates_christmas <->
       20077 <= d <= 20098
       /\ nth (Z.to_nat (weekday d)) (workday_type None) false = true
       /\ ~ In d (map date (sample_year 2024))
       /\ ~ extension_covers None (Some 3) None (sample_year 2024) d.
Proof.
  split; [run|].
  apply (working_date_membership
           sample_source "2024-12-20" "2025-01-10" None None (Some 3) None
           20077 20098 (sample_year 2024) sample_dates_christmas); run.
Defined.

Lemma source_failure_propagates_witness :
  exec (working_date failing_source "2024-12-20" "2025-01-10"
                     None (Some 3) None None) = Error DataUnavailable
  /\ exec (total_working_day failing_source "2024-12-20" "2025-01-10"
                             None (Some 3) None None) = Error DataUnavailable
  /\ exec (working_day failing_source "2024-12-20" "2025-01-10"
                       None (Some 3) None None) = Error DataUnavailable.
Proof.
  apply (source_failure_propagates
           failing_source "2024-12-20" "2025-01-10" None (Some 3) None None
           20077 20098 DataUnavailable); run.
Defined.

Lemma extensions_only_remove_days_witness :
  exists wd0,
    exec (working_date sample_source "2024-12-20" "2025-01-10"
                       None None None None) = Ok wd0
    /\ incl sample_dates_christmas wd0
    /\ (List.length sample_dates_christmas <= List.length wd0)%nat.
Proof.
  apply (extensions_only_remove_days
           sample_source "2024-12-20" "2025-01-10" None None (Some 3) None
           sample_dates_christmas).
  run.
Defined.

Lemma five_day_is_six_day_without_saturdays_witness :
  2 <> 0
  /\ exec (working_date sample_source "2024-12-20" "2025-01-10"
                        (Some 2) None (Some 3) None)
     = result_map (filter not_saturday)
         (exec (working_date sample_source "2024-12-20" "2025-01-10"
                             None None (Some 3) None)).
Proof.
  split; [lia|].
  apply (five_day_is_six_day_without_saturdays
           sample_source "2024-12-20" "2025-01-10" 2 None (Some 3) None).
  lia.
Defined.


Lemma total_working_day_at_most_range_witness :
  exec (total_working_day sample_source "2024-12-20" "2025-01-10"
                          None None (Some 3) None) = Ok 16%nat
  /\ Z.of_nat 16 <= 20098 - 20077 + 1.
Proof.
  split; [run|].
  apply (total_working_day_at_most_range
           sample_source "2024-12-20" "2025-01-10" None None (Some 3) None
           20077 20098 16%nat).
  - run.
  - run.
  - lia.
  - run.
Defined.

Lemma working_day_rows_witness :
  exists wd,
    exec (working_date sample_source "2024-12-20" "2025-01-10"
                       None None (Some 3) None) = Ok wd
    /\ StronglySorted Z.lt (map fst [(659, 7%nat); (660, 9%nat)])
    /\ forall k m,
         In (k, m) [(659, 7%nat); (660, 9%nat)]
         <-> m = rows_in_month k wd /\ (1 <= m)%nat.
Proof.
  apply (working_day_rows
           sample_source "2024-12-20" "2025-01-10" None None (Some 3) None
           [(659, 7%nat); (660, 9%nat)]).
  run.
Defined.

Lemma exact_label_extension_days_excluded_witness :
  In natal_2024 (sample_year 2024)
  /\ date natal_2024 <= 20084 < date natal_2024 + 3
  /\ ~ In 20084 sample_dates_christmas.
Proof.
  split; [do 4 right; left; reflexivity|].
  split; [vm_compute; split; [discriminate | reflexivity]|].
  apply (exact_label_extension_days_excluded
           sample_source "2024-12-20" "2025-01-10" None None (Some 3) None
           20077 20098 (sample_year 2024) sample_dates_christmas
           natal_2024 3 20084).
  - run.
  - run.
  - run.
  - run.
  - do 4 right. left. reflexivity.
  - vm_compute. split; [discriminate | reflexivity].
  - right. left. split; reflexivity.
Defined.

Lemma reversed_range_has_no_months_witness :
  exec (working_day sample_source "2025-01-31" "2025-01-01"
                    None (Some 3) None None) = Ok [].
Proof.
  apply (reversed_range_has_no_months
           sample_source "2025-01-31" "2025-01-01" None (Some 3) None None
           20119 20089).
  - run.
  - run.
  - lia.
  - reflexivity.
Defined.

(** *** Where a negative count makes a call fail *)

Lemma own_cluster_negative_branch i c n items :
  own_cluster_negative i c n items -> negative_branch i c n items.
Proof.
  intros (row & p & Hin & Hneg & Hcase). exists row, p.
  destruct Hcase as [[Hn ->]|[[Hn ->]|(Hnew & Hnatal & Hn & ->)]].
  - repeat split; auto.
    + now apply idul_fitri_is_seasonal.
    + now apply periods_of_idul_fitri.
  - repeat split; auto.
    + now apply natal_is_seasonal.
    + now apply periods_of_natal.
  - repeat split; auto.
    + unfold is_seasonal. rewrite Hnew. now rewrite !orb_true_r.
    + apply periods_of_other; [exact Hn|].
      intros Heq. rewrite Heq in Hnatal. discriminate Hnatal.
Qed.

(** C4 (as amended): the counts are not validated before the lookup.  For
    parsable dates each of the three functions first asks the holiday
    package, once; when the answer holds a row of a cluster whose own count
    is negative, the call then fails with InvalidExtensionValue. *)
Theorem negative_count_found_after_lookup
        src start end_ type i c n s e :
  to_datetime start = Ok s ->
  to_datetime end_ = Ok e ->
  exists ys,
    (lookups (working_date src start end_ type i c n) = [ys]
     /\ lookups (total_working_day src start end_ type i c n) = [ys]
     /\ lookups (working_day src start end_ type i c n) = [ys])
    /\ forall items,
         src ys = Ok items ->
         own_cluster_negative i c n items ->
         exec (working_date src start end_ type i c n)
         = Error InvalidExtensionValue
         /\ exec (total_working_day src start end_ type i c n)
            = Error InvalidExtensionValue
         /\ exec (working_day src start end_ type i c n)
            = Error InvalidExtensionValue.
Proof.
  intros Hs He. exists (query_years s e). split.
  - destruct (lookups_derived src start end_ type i c n) as [-> ->].
    rewrite (lookups_working_date _ _ _ _ _ _ _ _ _ Hs He). auto.
  - intros items Hsrc Hneg.
    assert (Hwd : exec (working_date src start end_ type i c n)
                  = Error InvalidExtensionValue).
    { rewrite (exec_working_date _ _ _ _ _ _ _ _ _ Hs He), Hsrc.
      rewrite holiday_frame_negative; [reflexivity|].
      now apply own_cluster_negative_branch. }
    now rewrite exec_total_working_day, exec_working_day, Hwd.
Qed.

Lemma negative_count_found_after_lookup_witness :
  to_datetime "2024-12-20" = Ok 20077
  /\ to_datetime "2025-01-10" = Ok 20098
  /\ own_cluster_negative (Some (-1)) None None (sample_year 2024)
  /\ exists ys,
       (lookups (working_date sample_source "2024-12-20" "2025-01-10"
                              None (Some (-1)) None None) = [ys]
        /\ lookups (total_working_day sample_source "2024-12-20" "2025-01-10"
                                      None (Some (-1)) None None) = [ys]
        /\ lookups (working_day sample_source "2024-12-20" "2025-01-10"
                                None (Some (-1)) None None) = [ys])
       /\ forall items,
            sample_source ys = Ok items ->
            own_cluster_negative (Some (-1)) None None items ->
            exec (working_date sample_source "2024-12-20" "2025-01-10"
                               None (Some (-1)) None None)
            = Error InvalidExtensionValue
            /\ exec (total_working_day sample_source "2024-12-20" "2025-01-10"
                                       None (Some (-1)) None None)
               = Error InvalidExtensionValue
            /\ exec (working_day sample_source "2024-12-20" "2025-01-10"
                                 None (Some (-1)) None None)
               = Error InvalidExtensionValue.
Proof.
  split; [run|]. split; [run|]. split.
  - exists {| date := days_from_civil 2024 4 1; name := IDUL_FITRI_2 |}, (-1).
    split; [do 2 right; left; reflexivity|].
    split; [lia|]. left. split; reflexivity.
  - apply (negative_count_found_after_lookup
             sample_source "2024-12-20" "2025-01-10" None (Some (-1)) None None
             20077 20098); run.
Defined.

(** *** The work-week value *)

Lemma five_day_mask_iff (d : Z) :
  nth (Z.to_nat (weekday d)) MON_FRI false = true <-> weekday d < 5.
Proof.
  split; [apply five_day_mask|]. intros H.
  destruct (weekday_cases d) as [Hw|[Hw|[Hw|[Hw|[Hw|[Hw|Hw]]]]]];
    rewrite Hw in *; try reflexivity; lia.
Qed.

(** The work-week value has no part in whether a call fails. *)
Lemma working_date_error_any_type src start end_ type type' i c n x :
  exec (working_date src start end_ type i c n) = Error x
  <-> exec (working_date src start end_ type' i c n) = Error x.
Proof.
  unfold exec. rewrite !working_date_run.
  destruct (to_datetime start) as [s|y]; [|reflexivity].
  destruct (to_datetime end_) as [e|y]; [|reflexivity]. cbn [fst].
  destruct (src (query_years s e)) as [items|y]; [|reflexivity].
  destruct (holiday_frame i c n items) as [h|y]; simpl; [|reflexivity].
  split; discriminate.
Qed.

(** C9: every work-week value other than unset and 0, whether 1 or a value
    outside the documented ones, applies the Monday-to-Friday pattern and is
    never rejected.  The mask is Monday to Friday and the run is the run of
    type 1; the call fails only where the call with the type unset fails;
    and whenever the holiday frame is built, the call returns, in increasing
    order, exactly the days from start to end that fall on Monday to Friday
    and are no date of the frame. *)
Theorem nonzero_type_is_five_day src start end_ t i c n :
  t <> 0 ->
  workday_type (Some t) = MON_FRI
  /\ same_run (working_date src start end_ (Some t) i c n)
              (working_date src start end_ (Some 1) i c n)
  /\ (forall x,
        exec (working_date src start end_ (Some t) i c n) = Error x
        <-> exec (working_date src start end_ None i c n) = Error x)
  /\ (forall wd,
        exec (working_date src start end_ (Some t) i c n) = Ok wd ->
        Forall (fun d => weekday d < 5) wd)
  /\ (forall s e items h,
        to_datetime start = Ok s ->
        to_datetime end_ = Ok e ->
        src (query_years s e) = Ok items ->
        holiday_frame i c n items = Ok h ->
        exists wd,
          exec (working_date src start end_ (Some t) i c n) = Ok wd
          /\ StronglySorted Z.lt wd
          /\ forall d,
               In d wd <->
               s <= d <= e /\ weekday d < 5 /\ ~ In d (map date h)).
Proof.
  intros Ht. split; [now apply workday_type_nonzero|]. split; [|split; [|split]].
  - intros log. rewrite !working_date_run. unfold business_days.
    now rewrite (workday_type_nonzero t Ht).
  - intros x. apply working_date_error_any_type.
  - intros wd Hwd.
    destruct (working_date_ok _ _ _ _ _ _ _ _ Hwd)
      as (s & e & holiday & _ & _ & ->).
    apply Forall_forall. intros d Hd. apply In_business_days in Hd.
    destruct Hd as (_ & Hmask & _).
    rewrite (workday_type_nonzero t Ht) in Hmask. now apply five_day_mask.
  - intros s e items h Hs He Hsrc Hh.
    exists (business_days s e (Some t) h). split; [|split].
    + now rewrite (exec_working_date _ _ _ _ _ _ _ _ _ Hs He), Hsrc, Hh.
    + apply business_days_increasing.
    + intros d. rewrite In_business_days, (workday_type_nonzero t Ht).
      now rewrite five_day_mask_iff.
Qed.

Lemma nonzero_type_is_five_day_witness :
  -1 <> 0
  /\ to_datetime "2024-12-20" = Ok 20077
  /\ to_datetime "2025-01-10" = Ok 20098
  /\ sample_source (query_years 20077 20098) = Ok (sample_year 2024)
  /\ holiday_frame (Some 3) None None (sample_year 2024) = Ok sample_frame
  /\ exists wd,
       exec (working_date sample_source "2024-12-20" "2025-01-10"
                          (Some (-1)) (Some 3) None None) = Ok wd
       /\ StronglySorted Z.lt wd
       /\ forall d,
            In d wd <->
            20077 <= d <= 20098 /\ weekday d < 5
            /\ ~ In d (map date sample_frame).
Proof.
  split; [lia|]. split; [run|]. split; [run|]. split; [run|]. split; [run|].
  destruct (nonzero_type_is_five_day
              sample_source "2024-12-20" "2025-01-10" (-1) (Some 3) None None)
    as (_ & _ & _ & _ & Hreturns); [lia|].
  apply (Hreturns 20077 20098 (sample_year 2024) sample_frame); run.
Defined.

End Behaviour.
